(** * mini_BDX_runtime: the control loop of [scripts/rl_walk.py]

    A shallow embedding of [RLWalk] (orientation sampler thread,
    observation assembly, policy call, action post-processing and loop
    pacing) together with the properties its specification states.

    Python floats are IEEE binary64 numbers and are embedded as Rocq's
    primitive floats.  Mutable objects become explicit state; calls to
    the hardware, the inference engines and the clock are answered by
    an environment script and recorded in a trace. *)

From Stdlib Require Import String.
From Stdlib Require Import List ZArith Lia Bool.
From Stdlib Require Import Floats.PrimFloat.
Import ListNotations.

Set Warnings "-inexact-float".
Set Implicit Arguments.

Local Open Scope float_scope.
Local Open Scope list_scope.

(* ================================================================== *)
(** ** Python exceptions and fallible results *)

(** [KeyboardInterrupt] derives from [BaseException] only; everything
    else raised here is a subclass of [Exception]. *)
Inductive exn : Type :=
| KeyboardInterrupt
| Exception (cls : string) (msg : string).

Definition is_Exception (e : exn) : bool :=
  match e with
  | KeyboardInterrupt => false
  | Exception _ _ => true
  end.

Definition is_KeyboardInterrupt (e : exn) : bool :=
  match e with
  | KeyboardInterrupt => true
  | Exception _ _ => false
  end.

Definition ZeroDivisionError : exn := Exception "ZeroDivisionError" "division by zero".
Definition ValueError (msg : string) : exn := Exception "ValueError" msg.
Definition OverflowError (msg : string) : exn := Exception "OverflowError" msg.
Definition IndexError : exn := Exception "IndexError" "index out of range".
Definition Empty : exn := Exception "Empty" "".

Inductive result (A : Type) : Type :=
| Ok (a : A)
| Raise (e : exn).
Arguments Ok {A} a.
Arguments Raise {A} e.

(* ================================================================== *)
(** ** Python and numpy arithmetic on floats and arrays *)

(** [x / y] on Python numbers. *)
Definition py_div (x y : float) : result float :=
  if y =? 0 then Raise ZeroDivisionError else Ok (x / y).

(** [max(x, y)]: the first argument is kept unless the second is
    strictly greater. *)
Definition py_max (x y : float) : float :=
  if x <? y then y else x.

(** What [time.sleep(d)] raises before it sleeps.  CPython refuses a
    NaN with [ValueError], converts the duration to a count of
    nanoseconds in a signed 64-bit integer and raises [OverflowError]
    when the count is below [-2^63] or above [2^63], and then raises
    [ValueError] for a negative count.  A count of exactly [2^63]
    passes the range test and wraps to a negative one. *)
Definition sleep_refusal (d : float) : option exn :=
  if negb (d =? d)
  then Some (ValueError "Invalid value NaN (not a number)")
  else if (d * 1e9 <? -0x1p63) || (0x1p63 <? d * 1e9)
  then Some (OverflowError "timestamp too large to convert to C _PyTime_t")
  else if (d <? 0) || (d * 1e9 =? 0x1p63)
  then Some (ValueError "sleep length must be non-negative")
  else None.

(** [np.deg2rad]. *)
Definition deg2rad (x : float) : float := x * 0x1.1df46a2529d39p-6.

Definition np_zeros (n : nat) : list float := repeat 0 n.

Fixpoint zip_with (op : float -> float -> float) (a b : list float) : list float :=
  match a, b with
  | x :: a', y :: b' => op x y :: zip_with op a' b'
  | _, _ => []
  end.

(** Element-wise binary operation on one-dimensional arrays with
    numpy's broadcasting: equal lengths, or one side of length one. *)
Definition np_broadcast (op : float -> float -> float) (a b : list float)
  : result (list float) :=
  if Nat.eqb (length a) (length b) then Ok (zip_with op a b)
  else match a, b with
       | [x], _ => Ok (map (op x) b)
       | _, [y] => Ok (map (fun x => op x y) a)
       | _, _ => Raise (ValueError "operands could not be broadcast together")
       end.

Definition np_sub := np_broadcast sub.
Definition np_add := np_broadcast add.
Definition np_mul := np_broadcast mul.

(** [array * scalar]. *)
Definition np_scale (a : list float) (c : float) : list float :=
  map (fun x => x * c) a.

(** [np.concatenate] of one-dimensional arrays. *)
Definition np_concatenate (parts : list (list float)) : list float :=
  concat parts.

(** [np.array(rows).flatten()]: the rows must have one common length. *)
Definition np_flatten (rows : list (list float)) : result (list float) :=
  match rows with
  | [] => Ok []
  | r :: _ =>
      if forallb (fun r' => Nat.eqb (length r') (length r)) rows
      then Ok (concat rows)
      else Raise (ValueError "inhomogeneous shape")
  end.

(** [l[-n:]]: the last [n] elements, all of [l] when it is shorter; and
    since [-0] is [0], all of [l] for [n = 0]. *)
Definition last_n {A : Type} (n : nat) (l : list A) : list A :=
  match n with
  | O => l
  | S _ => skipn (length l - n) l
  end.

(** [l[k]] for a non-negative index. *)
Definition py_index (l : list float) (k : nat) : result float :=
  match nth_error l k with
  | Some x => Ok x
  | None => Raise IndexError
  end.

(* ================================================================== *)
(** ** [queue.Queue] *)

Module Queue.

Record t (A : Type) : Type := mk { maxsize : nat; items : list A }.
Arguments mk {A} maxsize items.

(** [Queue(maxsize)] *)
Definition create {A : Type} (n : nat) : t A := mk n [].

Definition full {A : Type} (q : t A) : bool :=
  Nat.ltb 0 (maxsize q) && Nat.leb (maxsize q) (length (items q)).

(** [put(item)] with the default [block=True, timeout=None]: the
    caller waits for as long as the queue is full. *)
Inductive put_outcome (A : Type) : Type :=
| Stored (q : t A)
| Waits.
Arguments Stored {A} q.
Arguments Waits {A}.

Definition put {A : Type} (q : t A) (item : A) : put_outcome A :=
  if full q then Waits else Stored (mk (maxsize q) (items q ++ [item])).

(** [get(False)]: returns at once, raising [Empty] on an empty queue. *)
Definition get_nowait {A : Type} (q : t A) : result A * t A :=
  match items q with
  | [] => (Raise Empty, q)
  | x :: rest => (Ok x, mk (maxsize q) rest)
  end.

End Queue.

(* ================================================================== *)
(** ** Collaborators that live outside [scripts/]

    [mini_bdx_runtime.rl_utils], [mini_bdx_runtime.hwi] and scipy's
    [Rotation] are not part of the script; the script's behaviour is
    stated for any implementation of them. *)

Class Runtime : Type := {
  (** [rl_utils.mujoco_to_isaac] and [rl_utils.isaac_to_mujoco] *)
  mujoco_to_isaac : list float -> result (list float);
  isaac_to_mujoco : list float -> result (list float);
  (** [rl_utils.quat_rotate_inverse(q, v)] *)
  quat_rotate_inverse : list float -> list float -> result (list float);
  (** [rl_utils.mujoco_joints_order] and [rl_utils.make_action_dict] *)
  mujoco_joints_order : list string;
  make_action_dict : list float -> list string -> result (list (string * float));
  (** [rl_utils.LowPassActionFilter] *)
  LowPassActionFilter_t : Type;
  LowPassActionFilter : float -> float -> LowPassActionFilter_t;
  push : LowPassActionFilter_t -> list float -> result LowPassActionFilter_t;
  get_filtered_action : LowPassActionFilter_t -> list float;
  (** [list(HWI.init_pos.values())] *)
  hwi_init_pos : list float;
  (** [R.from_quat(q).as_euler("xyz")] and [R.from_euler("xyz", e).as_quat()] *)
  from_quat_as_euler : list float -> result (list float);
  from_euler_as_quat : list float -> list float
}.

(* ================================================================== *)
(** ** The [RLWalk] object *)

Module Self.
Section WithRuntime.
Context {RT : Runtime}.

(** The attributes of [self] the loop reads or writes.  With
    [rma = False] the two history attributes do not exist and are never
    read; with [debug_no_imu = True] the same holds for [last_imu_data]
    and [imu_queue]. *)
Record t : Type := mk {
  debug_no_imu : bool;
  commands : bool;
  pitch_bias : float;
  rma : bool;
  num_obs : nat;
  obs_history_size : nat;
  obs_history : list (list float);
  last_imu_data : option (list float);
  imu_queue : Queue.t (list float);
  control_freq : float;
  linearVelocityScale : float;
  angularVelocityScale : float;
  dof_pos_scale : float;
  dof_vel_scale : float;
  action_scale : float;
  prev_action : list float;
  mujoco_init_pos : list float;
  isaac_init_pos : list float;
  action_filter : LowPassActionFilter_t
}.

Definition set_obs_history (h : list (list float)) (s : t) : t :=
  mk (debug_no_imu s) (commands s) (pitch_bias s) (rma s) (num_obs s)
     (obs_history_size s) h (last_imu_data s) (imu_queue s) (control_freq s)
     (linearVelocityScale s) (angularVelocityScale s) (dof_pos_scale s)
     (dof_vel_scale s) (action_scale s) (prev_action s) (mujoco_init_pos s)
     (isaac_init_pos s) (action_filter s).

Definition set_last_imu_data (d : option (list float)) (s : t) : t :=
  mk (debug_no_imu s) (commands s) (pitch_bias s) (rma s) (num_obs s)
     (obs_history_size s) (obs_history s) d (imu_queue s) (control_freq s)
     (linearVelocityScale s) (angularVelocityScale s) (dof_pos_scale s)
     (dof_vel_scale s) (action_scale s) (prev_action s) (mujoco_init_pos s)
     (isaac_init_pos s) (action_filter s).

Definition set_imu_queue (q : Queue.t (list float)) (s : t) : t :=
  mk (debug_no_imu s) (commands s) (pitch_bias s) (rma s) (num_obs s)
     (obs_history_size s) (obs_history s) (last_imu_data s) q (control_freq s)
     (linearVelocityScale s) (angularVelocityScale s) (dof_pos_scale s)
     (dof_vel_scale s) (action_scale s) (prev_action s) (mujoco_init_pos s)
     (isaac_init_pos s) (action_filter s).

Definition set_prev_action (a : list float) (s : t) : t :=
  mk (debug_no_imu s) (commands s) (pitch_bias s) (rma s) (num_obs s)
     (obs_history_size s) (obs_history s) (last_imu_data s) (imu_queue s)
     (control_freq s) (linearVelocityScale s) (angularVelocityScale s)
     (dof_pos_scale s) (dof_vel_scale s) (action_scale s) a
     (mujoco_init_pos s) (isaac_init_pos s) (action_filter s).

Definition set_action_filter (f : LowPassActionFilter_t) (s : t) : t :=
  mk (debug_no_imu s) (commands s) (pitch_bias s) (rma s) (num_obs s)
     (obs_history_size s) (obs_history s) (last_imu_data s) (imu_queue s)
     (control_freq s) (linearVelocityScale s) (angularVelocityScale s)
     (dof_pos_scale s) (dof_vel_scale s) (action_scale s) (prev_action s)
     (mujoco_init_pos s) (isaac_init_pos s) f.

(** [RLWalk.__init__], for the arguments the loop depends on.  The
    history is [np.zeros((obs_history_size, num_obs)).tolist()]. *)
Definition init (control_freq : float) (debug_no_imu : bool)
    (action_scale cutoff_frequency : float) (commands : bool)
    (pitch_bias : float) (rma : bool) : result t :=
  let num_obs := 51%nat in
  let obs_history_size := if rma then 15%nat else 0%nat in
  let obs_history := if rma then repeat (np_zeros num_obs) obs_history_size else [] in
  let last_imu_data := if debug_no_imu then None else Some [0; 0; 0; 0] in
  let imu_queue := Queue.create 1 in
  let mujoco_init_pos := hwi_init_pos ++ [0; 0] in
  match mujoco_to_isaac mujoco_init_pos with
  | Raise e => Raise e
  | Ok isaac_init_pos =>
      Ok (mk debug_no_imu commands pitch_bias rma num_obs obs_history_size
             obs_history last_imu_data imu_queue control_freq
             2 0.25 1 0.05 action_scale (np_zeros 15)
             mujoco_init_pos isaac_init_pos
             (LowPassActionFilter control_freq cutoff_frequency))
  end.

End WithRuntime.
End Self.

(* ================================================================== *)
(** ** The process state, its effects and the environment *)

(** Effects visible outside the process, in the order they happen. *)
Inductive event : Type :=
| Print (msg : string)
| PrintExn (e : exn)
| PrintCommands (c : list float)
| GetPresentPositions
| GetPresentVelocities
| AdaptationInfer (x : list float)
| PolicyInfer (x : list float)
| SetPositionAll (d : list (string * float))
| GetCommand
| Sleep (d : float).

(** The sampler thread: not started, between two statements of its
    loop, waiting inside [imu_queue.put], or ended by an exception
    nothing caught. *)
Inductive worker_state : Type :=
| WNotStarted
| WReady
| WPutting (v : list float)
| WDead (e : exn).

(** The local variables of [run]. *)
Module Locals.
Record t : Type := mk {
  i : Z;
  robot_computed_obs : list (list float);
  commands : list float
}.
End Locals.

(** What the outside world answers during one pass through the body of
    the loop of [run].  [sensor] lists the answers of [imu.quaternion]
    to the sampler thread since the previous pass; the queue is the only
    object both threads touch, and [run] touches it once per pass, so
    letting the sampler act just before that access loses no
    interleaving.  A [KeyboardInterrupt] reaches the main thread as
    the answer to one of its calls. *)
Record IterEnv : Type := {
  sensor : list (result (list float));
  time_start : float;
  present_positions : result (list float);
  present_velocities : result (list float);
  latent : result (list float);
  action : result (list float);
  set_position : result unit;
  command : result (list float);
  time_end : float;
  sleep : result unit
}.

Section WithRuntime.
Context {RT : Runtime}.

Record World : Type := mkWorld {
  self : Self.t;
  frame : Locals.t;
  worker : worker_state;
  worker_trace : list event;
  trace : list event;
  (** the content of [robot_computed_obs.pkl], once written *)
  pkl : option (list (list float))
}.

Definition with_self (f : Self.t -> Self.t) (w : World) : World :=
  mkWorld (f (self w)) (frame w) (worker w) (worker_trace w) (trace w) (pkl w).
Definition with_frame (f : Locals.t -> Locals.t) (w : World) : World :=
  mkWorld (self w) (f (frame w)) (worker w) (worker_trace w) (trace w) (pkl w).
Definition with_worker (s : worker_state) (w : World) : World :=
  mkWorld (self w) (frame w) s (worker_trace w) (trace w) (pkl w).
Definition worker_emit (e : event) (w : World) : World :=
  mkWorld (self w) (frame w) (worker w) (worker_trace w ++ [e]) (trace w) (pkl w).
Definition with_trace (t : list event) (w : World) : World :=
  mkWorld (self w) (frame w) (worker w) (worker_trace w) t (pkl w).
Definition with_pkl (p : option (list (list float))) (w : World) : World :=
  mkWorld (self w) (frame w) (worker w) (worker_trace w) (trace w) p.

(** The process right after [RLWalk(...)]: the sampler thread is
    started by the constructor unless [debug_no_imu] is set.  The
    constructor starts the thread two statements before it assigns
    [control_freq]; [boot] is the state in which the thread has not
    got as far as its first [put] by the time the constructor returns,
    so that the thread finds every attribute it reads. *)
Definition boot (s : Self.t) : World :=
  mkWorld s (Locals.mk 0 [] [])
          (if Self.debug_no_imu s then WNotStarted else WReady) [] [] None.

(** *** Statements of the main thread: state and exceptions

    A statement maps the state to a value or a raised exception and the
    state it leaves behind; what was mutated before the exception stays
    mutated. *)
Definition M (A : Type) : Type := World -> result A * World.

Definition ret {A : Type} (a : A) : M A := fun w => (Ok a, w).
Definition bind {A B : Type} (m : M A) (k : A -> M B) : M B :=
  fun w => match m w with
           | (Ok a, w') => k a w'
           | (Raise e, w') => (Raise e, w')
           end.
Definition lift {A : Type} (r : result A) : M A := fun w => (r, w).
Definition gets {A : Type} (f : World -> A) : M A := fun w => (Ok (f w), w).
Definition modify (f : World -> World) : M unit := fun w => (Ok tt, f w).
Definition emit (e : event) : M unit :=
  modify (fun w => with_trace (trace w ++ [e]) w).

(** [time.sleep(d)]; [interrupt] is what the environment delivers while
    the thread sleeps. *)
Definition time_sleep (d : float) (interrupt : result unit) : M unit :=
  match sleep_refusal d with
  | None => bind (emit (Sleep d)) (fun _ => lift interrupt)
  | Some e => lift (Raise e)
  end.

End WithRuntime.

Declare Scope monad_scope.
Delimit Scope monad_scope with monad.
Notation "x <- m ;; k" := (bind m (fun x => k))
  (at level 61, m at next level, right associativity) : monad_scope.
Notation "m ;; k" := (bind m (fun _ => k))
  (at level 61, right associativity) : monad_scope.
Local Open Scope monad_scope.

(* ================================================================== *)
(** ** [RLWalk.imu_worker]: the sampler thread *)

Section Program.
Context {RT : Runtime}.

(** [self.imu_queue.put(final_orientation_quat)] and then
    [time.sleep(1 / (self.control_freq * 2))].  A full queue leaves the
    thread waiting inside [put]. *)
Definition publish (v : list float) (w : World) : World :=
  match Queue.put (Self.imu_queue (self w)) v with
  | Queue.Waits => with_worker (WPutting v) w
  | Queue.Stored q =>
      let w := with_self (Self.set_imu_queue q) w in
      match py_div 1 (Self.control_freq (self w) * 2) with
      | Raise e => with_worker (WDead e) w
      | Ok d =>
          match sleep_refusal d with
          | None => with_worker WReady (worker_emit (Sleep d) w)
          | Some e => with_worker (WDead e) w
          end
      end
  end.

(** A thread that waits inside [put] gets on as soon as the reader has
    taken the sample out of the cell: its own sample is stored and it
    goes to sleep.  While the cell is full it keeps waiting. *)
Definition resume_put (w : World) : World :=
  match worker w with
  | WPutting v => publish v w
  | _ => w
  end.

(** One pass through the body of [while True], given what
    [self.imu.quaternion] answers.  A thread waiting inside [put] does
    not read the sensor. *)
Definition imu_worker_pass (reading : result (list float)) (w : World) : World :=
  match worker w with
  | WNotStarted => w
  | WDead _ => w
  | WPutting v => publish v w
  | WReady =>
      let attempt :=
        match reading with
        | Ok raw_orientation => from_quat_as_euler raw_orientation
        | Raise e => Raise e
        end in
      match attempt with
      | Raise e =>
          if is_Exception e
          then worker_emit (PrintExn e) w          (* print(e); continue *)
          else with_worker (WDead e) w
      | Ok euler =>
          match py_index euler 1, py_index euler 2, py_index euler 0 with
          | Ok e1, Ok e2, Ok e0 =>
              let euler := [e1; e2 + deg2rad (Self.pitch_bias (self w)); e0] in
              publish (from_euler_as_quat euler) w
          | _, _, _ => with_worker (WDead IndexError) w
          end
      end
  end.

(** The passes of the loop on the readings listed, one after the other. *)
Definition imu_worker_passes (readings : list (result (list float))) (w : World)
  : World :=
  fold_left (fun w r => imu_worker_pass r w) readings w.

(** The thread from where it stands, for as long as [readings] lists
    answers of the sensor: a [put] that was waiting goes through first
    if the cell has been emptied in the meantime, whether or not the
    sensor is read again afterwards. *)
Definition imu_worker (readings : list (result (list float))) (w : World) : World :=
  imu_worker_passes readings (resume_put w).

(* ================================================================== *)
(** ** [RLWalk.get_imu_data] and [RLWalk.get_obs] *)

Definition get_imu_data : M (option (list float)) :=
  fun w =>
    match Queue.get_nowait (Self.imu_queue (self w)) with
    | (Ok v, q) =>
        let w := with_self (fun s => Self.set_last_imu_data (Some v)
                                       (Self.set_imu_queue q s)) w in
        (Ok (Self.last_imu_data (self w)), w)
    | (Raise e, _) =>
        if is_Exception e
        then (Ok (Self.last_imu_data (self w)), w)   (* pass *)
        else (Raise e, w)
    end.

Definition get_obs (commands : list float) (env : IterEnv)
  : M (option (list float)) :=
  debug <- gets (fun w => Self.debug_no_imu (self w)) ;;
  orientation_quat <- (if debug then ret (Some [1; 0; 0; 0]) else get_imu_data) ;;
  match orientation_quat with
  | None => emit (Print "IMU ERROR") ;; ret None
  | Some orientation_quat =>
      emit GetPresentPositions ;;
      dof_pos <- lift (present_positions env) ;;
      emit GetPresentVelocities ;;
      dof_vel <- lift (present_velocities env) ;;
      s <- gets self ;;
      d <- lift (np_sub dof_pos (firstn 13 (Self.mujoco_init_pos s))) ;;
      let dof_pos_scaled := np_scale d (Self.dof_pos_scale s) in
      let dof_vel_scaled := np_scale dof_vel (Self.dof_vel_scale s) in
      let dof_pos_scaled := np_concatenate [dof_pos_scaled; [0; 0]] in
      let dof_vel_scaled := np_concatenate [dof_vel_scaled; [0; 0]] in
      dof_pos_scaled <- lift (mujoco_to_isaac dof_pos_scaled) ;;
      dof_vel_scaled <- lift (mujoco_to_isaac dof_vel_scaled) ;;
      projected_gravity <- lift (quat_rotate_inverse orientation_quat [0; 0; -1]) ;;
      ret (Some (np_concatenate [projected_gravity; commands; dof_pos_scaled;
                                 dof_vel_scaled; Self.prev_action s]))
  end.

(* ================================================================== *)
(** ** [RLWalk.run] *)

Inductive flow : Type := Continue | Break.

Definition append_obs (obs : list float) (l : Locals.t) : Locals.t :=
  Locals.mk (Locals.i l) (Locals.robot_computed_obs l ++ [obs]) (Locals.commands l).
Definition set_commands (c : list float) (l : Locals.t) : Locals.t :=
  Locals.mk (Locals.i l) (Locals.robot_computed_obs l) c.
Definition incr_i (l : Locals.t) : Locals.t :=
  Locals.mk (Locals.i l + 1) (Locals.robot_computed_obs l) (Locals.commands l).

(** The policy call of one pass, in either mode. *)
Definition infer_action (obs : list float) (env : IterEnv) : M (list float) :=
  s <- gets self ;;
  if Self.rma s then
    let h := last_n (Self.obs_history_size s) (Self.obs_history s ++ [obs]) in
    modify (with_self (Self.set_obs_history h)) ;;
    x <- lift (np_flatten h) ;;
    emit (AdaptationInfer x) ;;
    latent <- lift (latent env) ;;
    let policy_input := np_concatenate [obs; latent] in
    emit (PolicyInfer policy_input) ;;
    lift (action env)
  else
    emit (PolicyInfer obs) ;;
    lift (action env).

(** The last two statements of the body: [took = time.time() - start]
    and [time.sleep(max(1 / self.control_freq - took, 0))]. *)
Definition pace (start : float) (env : IterEnv) : M unit :=
  let took := time_end env - start in
  s <- gets self ;;
  period <- lift (py_div 1 (Self.control_freq s)) ;;
  time_sleep (py_max (period - took) 0) (sleep env).

(** The body of [while True] in [run].  The sampler thread runs first,
    on the readings the environment lists for this pass. *)
Definition loop_body (env : IterEnv) : M flow :=
  modify (imu_worker (sensor env)) ;;
  let start := time_start env in
  commands <- gets (fun w => Locals.commands (frame w)) ;;
  obs <- get_obs commands env ;;
  match obs with
  | None => ret Break
  | Some obs =>
      modify (with_frame (append_obs obs)) ;;
      action <- infer_action obs env ;;
      modify (with_self (Self.set_prev_action action)) ;;
      s <- gets self ;;
      action <- lift (np_add (np_scale action (Self.action_scale s))
                             (Self.isaac_init_pos s)) ;;
      f <- lift (push (Self.action_filter s) action) ;;
      modify (with_self (Self.set_action_filter f)) ;;
      let action := get_filtered_action f in
      robot_action <- lift (isaac_to_mujoco action) ;;
      action_dict <- lift (make_action_dict robot_action mujoco_joints_order) ;;
      emit (SetPositionAll action_dict) ;;
      lift (set_position env) ;;
      (if Self.commands s then
         emit GetCommand ;;
         c <- lift (command env) ;;
         c <- lift (np_mul c [Self.linearVelocityScale s;
                              Self.linearVelocityScale s;
                              Self.angularVelocityScale s]) ;;
         modify (with_frame (set_commands c)) ;;
         emit (PrintCommands c)
       else ret tt) ;;
      modify (with_frame incr_i) ;;
      pace start env ;;
      ret Continue
  end.

(** The loop, for as many passes as the environment script describes. *)
Inductive loop_end : Type := Exited | StillLooping.

Fixpoint loop (script : list IterEnv) : M loop_end :=
  match script with
  | [] => ret StillLooping
  | env :: rest =>
      f <- loop_body env ;;
      match f with
      | Break => ret Exited
      | Continue => loop rest
      end
  end.

(** How a call of [run] stands once the script is used up. *)
Inductive outcome : Type :=
| Returned
| Raised (e : exn)
| Running.

(** [pickle.dump(robot_computed_obs, open(...))] and [time.sleep(1)]. *)
Definition dump_and_return (w : World) : outcome * World :=
  let w := with_pkl (Some (Locals.robot_computed_obs (frame w))) w in
  (Returned, with_trace (trace w ++ [Sleep 1]) w).

(** The statements of [run] before the loop: [i = 0],
    [robot_computed_obs = []], [print("Starting")] and
    [commands = [0.0, 0.0, 0.0]]. *)
Definition entry (w : World) : World :=
  with_trace (trace w ++ [Print "Starting"])
             (with_frame (fun _ => Locals.mk 0 [] [0; 0; 0]) w).

Definition run (script : list IterEnv) (w : World) : outcome * World :=
  match loop script (entry w) with
  | (Ok StillLooping, w) => (Running, w)
  | (Ok Exited, w) => dump_and_return w
  | (Raise e, w) =>
      if is_KeyboardInterrupt e            (* except KeyboardInterrupt: pass *)
      then dump_and_return w
      else (Raised e, w)
  end.

End Program.

(* ================================================================== *)
(** ** [scripts/imu_test.py]

    The script reads the sensor in a loop of its own: a reading that
    converts is printed and followed by [time.sleep(1 / 30)]; an
    exception of class [Exception] is printed and the loop goes on at
    once. *)

Module ImuTest.
Section WithRuntime.
Context {RT : Runtime}.

Inductive output : Type :=
| PrintEuler (euler : list float)
| PrintError (e : exn)
| Slept (d : float).

(** The script is in its loop, or has ended with an exception. *)
Inductive status : Type :=
| Looping
| Ended (e : exn).

Record t : Type := mk { state : status; out : list output }.

(** The [try] block up to [print(euler)]. *)
Definition attempt (reading : result (list float)) : result (list float) :=
  match reading with
  | Ok raw_orientation => from_quat_as_euler raw_orientation
  | Raise e => Raise e
  end.

(** One pass through the body of [while True]. *)
Definition pass (reading : result (list float)) (s : t) : t :=
  match state s with
  | Ended _ => s
  | Looping =>
      match attempt reading with
      | Raise e =>
          if is_Exception e
          then mk Looping (out s ++ [PrintError e])     (* print(e); continue *)
          else mk (Ended e) (out s)
      | Ok euler =>
          let s := mk Looping (out s ++ [PrintEuler euler]) in
          match py_div 1 30 with
          | Raise e => mk (Ended e) (out s)
          | Ok d =>
              match sleep_refusal d with
              | Some e => mk (Ended e) (out s)
              | None => mk Looping (out s ++ [Slept d])
              end
          end
      end
  end.

Definition run (readings : list (result (list float))) (s : t) : t :=
  fold_left (fun s r => pass r s) readings s.

End WithRuntime.
End ImuTest.

(* ================================================================== *)
(** ** A test double for the collaborators

    Identity joint mapping, a filter that passes its input through, a
    rest pose of thirteen zeros, and rotations that keep the numbers
    they are given.  It makes the model run on concrete sessions. *)

Module Stub.

Definition action_dict (a : list float) (names : list string)
  : result (list (string * float)) :=
  Ok (combine names a).

Definition joints : list string :=
  map (fun n => String (Ascii.ascii_of_nat (97 + n)) EmptyString) (seq 0 15).

#[export] Instance runtime : Runtime := {
  mujoco_to_isaac := fun v => Ok v;
  isaac_to_mujoco := fun v => Ok v;
  quat_rotate_inverse := fun q v => Ok v;
  mujoco_joints_order := joints;
  make_action_dict := action_dict;
  LowPassActionFilter_t := list float;
  LowPassActionFilter := fun _ _ => [];
  push := fun _ a => Ok a;
  get_filtered_action := fun f => f;
  hwi_init_pos := repeat 0 13;
  from_quat_as_euler := fun q => Ok (firstn 3 q);
  from_euler_as_quat := fun e => e ++ [1]
}.

(** [RLWalk(path, control_freq=30, action_scale=0.25,
    cutoff_frequency=10)] as the script's entry point builds it. *)
Definition robot (rma : bool) : result Self.t :=
  Self.init 30 false 0.25 10 false 0 rma.

(** One quiet pass: the robot stands at its rest pose, the policy
    answers [a], the pass takes ten milliseconds. *)
Definition quiet (a : result (list float)) : IterEnv := {|
  sensor := [];
  time_start := 100;
  present_positions := Ok (repeat 0 13);
  present_velocities := Ok (repeat 0 13);
  latent := Ok [0.5; 0.5];
  action := a;
  set_position := Ok tt;
  command := Ok [0; 0; 0];
  time_end := 100.01;
  sleep := Ok tt
|}.

(** The process right after construction. *)
Definition world (rma : bool) : World :=
  match robot rma with
  | Ok s => boot s
  | Raise _ =>
      boot (Self.mk true false 0 rma 51 0 [] None (Queue.create 1) 30
                    2 0.25 1 0.05 0.25 [] [] [] [])
  end.

(** Inputs and states of the concrete sessions below. *)
Definition w0 : World := world false.
Definition w0_rma : World := world true.

Definition ones : list float := repeat 1 15.
Definition first_obs : list float := [0; 0; -1] ++ repeat 0 48.
Definition second_obs : list float := [0; 0; -1] ++ repeat 0 33 ++ ones.

Definition inference_failed : exn := Exception "RuntimeError" "inference failed".
Definition older : list float := [0.125; 0.25; 0.5; 1].
Definition newer : list float := [1; 2; 4; 8].

Definition pass : IterEnv := quiet (Ok ones).
Definition failing_session : list IterEnv :=
  [pass; quiet (Raise inference_failed)].

(** The state after one pass, in either mode. *)
Definition w1 : World := snd (loop_body pass (entry w0)).

Definition timeout : exn := Exception "RuntimeError" "UART read error".

(** Objects built with other arguments: the debug mode, commands
    enabled, a control frequency of zero. *)
Definition built (r : result Self.t) : World :=
  match r with
  | Ok s => boot s
  | Raise _ => world false
  end.
Definition w0_debug : World := built (Self.init 30 true 0.25 10 false 0 false).
Definition w0_cmd : World := built (Self.init 30 false 0.25 10 true 0 false).
Definition w0_zero : World := built (Self.init 0 false 0.25 10 false 0 false).

(** A pass in which the hardware reports twelve joints, and one in
    which the command source answers. *)
Definition short_pass : IterEnv := {|
  sensor := [];
  time_start := 100;
  present_positions := Ok (repeat 0 12);
  present_velocities := Ok (repeat 0 13);
  latent := Ok [0.5; 0.5];
  action := Ok ones;
  set_position := Ok tt;
  command := Ok [0; 0; 0];
  time_end := 100.01;
  sleep := Ok tt
|}.
Definition cmd_pass : IterEnv := {|
  sensor := [];
  time_start := 100;
  present_positions := Ok (repeat 0 13);
  present_velocities := Ok (repeat 0 13);
  latent := Ok [0.5; 0.5];
  action := Ok ones;
  set_position := Ok tt;
  command := Ok [1; 2; 4];
  time_end := 100.01;
  sleep := Ok tt
|}.

(** A pass during which the sensor fails three times. *)
Definition blind_pass : IterEnv := {|
  sensor := [Raise timeout; Raise timeout; Raise timeout];
  time_start := 100;
  present_positions := Ok (repeat 0 13);
  present_velocities := Ok (repeat 0 13);
  latent := Ok [0.5; 0.5];
  action := Ok ones;
  set_position := Ok tt;
  command := Ok [0; 0; 0];
  time_end := 100.01;
  sleep := Ok tt
|}.


(** A pass before which the sampler has read the sensor twice. *)
Definition eager_pass : IterEnv := {|
  sensor := [Ok older; Ok newer];
  time_start := 100;
  present_positions := Ok (repeat 0 13);
  present_velocities := Ok (repeat 0 13);
  latent := Ok [0.5; 0.5];
  action := Ok ones;
  set_position := Ok tt;
  command := Ok [0; 0; 0];
  time_end := 100.01;
  sleep := Ok tt
|}.
Definition moving_pass : IterEnv := {|
  sensor := [];
  time_start := 100;
  present_positions := Ok [1; 2; 3; 4; 5; 6; 7; 8; 9; 10; 11; 12; 13];
  present_velocities := Ok [2; 4; 6; 8; 10; 12; 14; 16; 18; 20; 22; 24; 26];
  latent := Ok [0.5; 0.5];
  action := Ok ones;
  set_position := Ok tt;
  command := Ok [0; 0; 0];
  time_end := 100.01;
  sleep := Ok tt
|}.

(** A second double, for a robot whose rest pose is not zero: the
    joint mapping reverses the order, and the gravity is the vector it
    is given scaled by the first three entries of the quaternion. *)
Definition bent_runtime : Runtime := {|
  mujoco_to_isaac := fun v => Ok (rev v);
  isaac_to_mujoco := fun v => Ok (rev v);
  quat_rotate_inverse := fun q v => Ok (zip_with mul (firstn 3 q) v);
  mujoco_joints_order := joints;
  make_action_dict := action_dict;
  LowPassActionFilter_t := list float;
  LowPassActionFilter := fun _ _ => [];
  push := fun _ a => Ok a;
  get_filtered_action := fun f => f;
  hwi_init_pos := repeat 0.5 13;
  from_quat_as_euler := fun q => Ok (firstn 3 q);
  from_euler_as_quat := fun e => e ++ [1]
|}.

(** That robot after the sampler has published [older] and the loop
    has made one pass. *)
Definition bent : @World bent_runtime :=
  match Self.init (RT := bent_runtime) 30 false 0.25 10 false 0 false with
  | Ok s =>
      snd (loop_body (RT := bent_runtime) moving_pass
             (entry (publish older (boot s))))
  | Raise _ =>
      boot (Self.mk (RT := bent_runtime) true false 0 false 51 0 [] None
                    (Queue.create 1) 30 2 0.25 1 0.05 0.25 [] [] [] [])
  end.

End Stub.

(* ================================================================== *)
(** ** Vocabulary of the properties *)

Section Vocabulary.
Context {RT : Runtime}.

(** The cell [Queue(maxsize=1)] with nothing or one sample in it. *)
Definition single_slot (q : Queue.t (list float)) : Prop :=
  Queue.maxsize q = 1%nat /\ (length (Queue.items q) <= 1)%nat.

(** [preserves I m]: whatever [m] does, and however it ends, a state
    that satisfies [I] is left satisfying [I]. *)
Definition preserves {A : Type} (I : World -> Prop) (m : M A) : Prop :=
  forall w, I w -> I (snd (m w)).

(** What the sampler thread leaves alone. *)
Definition sampler_blind (I : World -> Prop) : Prop :=
  forall w q wk wt,
    I w ->
    I (mkWorld (Self.set_imu_queue q (self w)) (frame w) wk wt (trace w) (pkl w)).

(** The attributes of [self] that are assigned in [__init__] only. *)
Definition config (s : Self.t) :=
  (Self.debug_no_imu s, Self.commands s, Self.pitch_bias s, Self.rma s,
   Self.num_obs s, Self.obs_history_size s, Self.control_freq s,
   (Self.linearVelocityScale s, Self.angularVelocityScale s,
    Self.dof_pos_scale s, Self.dof_vel_scale s, Self.action_scale s,
    Self.mujoco_init_pos s, Self.isaac_init_pos s)).

Definition static (w : World) := (config (self w), pkl w).

(** The observation the pass on [env] assembles when it starts in [w],
    if [get_obs] returns one. *)
Definition pass_obs (env : IterEnv) (w : World) : option (list float) :=
  let w1 := imu_worker (sensor env) w in
  match get_obs (Locals.commands (frame w1)) env w1 with
  | (Ok (Some obs), _) => Some obs
  | _ => None
  end.

(** The observations assembled during a session, pass after pass, until
    the loop is left or the script ends. *)
Fixpoint session_obs (script : list IterEnv) (w : World) : list (list float) :=
  match script with
  | [] => []
  | env :: rest =>
      match pass_obs env w with
      | None => []
      | Some obs =>
          obs :: match loop_body env w with
                 | (Ok Continue, w') => session_obs rest w'
                 | _ => []
                 end
      end
  end.

(** [get_obs] has an orientation to work with: the fixed one of the
    debug mode, or a value in [last_imu_data]. *)
Definition has_orientation (w : World) : Prop :=
  Self.debug_no_imu (self w) = true \/ Self.last_imu_data (self w) <> None.

(** The quaternion [get_obs] works with: the fixed one of the debug
    mode, else the sample in the cell, else the last one taken. *)
Definition orientation_used (w : World) : option (list float) :=
  if Self.debug_no_imu (self w) then Some [1; 0; 0; 0]
  else match Queue.items (Self.imu_queue (self w)) with
       | v :: _ => Some v
       | [] => Self.last_imu_data (self w)
       end.

Definition is_set_position (e : event) : bool :=
  match e with
  | SetPositionAll _ => true
  | _ => false
  end.

Definition is_get_command (e : event) : bool :=
  match e with
  | GetCommand => true
  | _ => false
  end.

(** Since the trace was [t0], no event that satisfies [p] was added. *)
Definition none_since (p : event -> bool) (t0 : list event) (w : World) : Prop :=
  exists evs, trace w = t0 ++ evs /\ Forall (fun e => p e = false) evs.

(** One of the inputs a pass needs before it can command the motors
    is an exception. *)
Definition input_fails (env : IterEnv) : Prop :=
  (exists e, present_positions env = Raise e)
  \/ (exists e, present_velocities env = Raise e)
  \/ (exists e, action env = Raise e).

(** Commands are disabled, the command in use is zero, and since the
    trace was [t0] the command source was not polled. *)
Definition calm (t0 : list event) (w : World) : Prop :=
  none_since is_get_command t0 w
  /\ Self.commands (self w) = false
  /\ Locals.commands (frame w) = [0; 0; 0].

(** What one reading makes [imu_test.py] print, and whether it sleeps. *)
Definition imu_test_output (reading : result (list float)) : list ImuTest.output :=
  match ImuTest.attempt reading with
  | Ok euler => [ImuTest.PrintEuler euler; ImuTest.Slept (1 / 30)]
  | Raise e => [ImuTest.PrintError e]
  end.

End Vocabulary.

(* ================================================================== *)
(** * Properties *)

Unset Implicit Arguments.

(** ** The single-slot cell and the sampler thread *)

Section SamplerFacts.
Context {RT : Runtime}.

Lemma single_slot_cases (q : Queue.t (list float)) :
  single_slot q ->
  q = Queue.mk 1 [] \/ exists v, q = Queue.mk 1 [v].
Proof.
  destruct q as [m [| v [| v' l]]]; unfold single_slot; cbn; intros [-> Hl].
  - now left.
  - right. now exists v.
  - lia.
Qed.

Lemma imu_worker_ready (rs : list (result (list float))) (w : World) :
  worker w = WReady -> imu_worker rs w = imu_worker_passes rs w.
Proof. intros Hw. unfold imu_worker, resume_put. now rewrite Hw. Qed.

Lemma failed_read_pass (e : exn) (w : World) :
  worker w = WReady -> is_Exception e = true ->
  imu_worker_pass (Raise e) w = worker_emit (PrintExn e) w.
Proof.
  intros Hw He. unfold imu_worker_pass. rewrite Hw, He. reflexivity.
Qed.

(** C7: a run of failed sensor reads leaves the sampler thread in its
    loop, ready for the next read; each failure is printed, no sleep
    separates two attempts, and nothing the main thread can see (the
    object, its queue, its own trace, the written file) changes. *)
Theorem sampler_survives_read_failures (errs : list exn) (w : World) :
  worker w = WReady ->
  Forall (fun e => is_Exception e = true) errs ->
  imu_worker (map Raise errs) w
  = mkWorld (self w) (frame w) WReady
            (worker_trace w ++ map PrintExn errs) (trace w) (pkl w).
Proof.
  intros Hw Herrs. rewrite (imu_worker_ready _ _ Hw). revert w Hw.
  induction Herrs as [| e errs He _ IH]; intros w Hw.
  - destruct w; cbn in *. now rewrite app_nil_r, Hw.
  - change (imu_worker_passes (map Raise (e :: errs)) w)
      with (imu_worker_passes (map Raise errs) (imu_worker_pass (Raise e) w)).
    rewrite (failed_read_pass e w Hw He), (IH (worker_emit (PrintExn e) w) Hw).
    cbn. now rewrite <- app_assoc.
Qed.

(** C1, as the code has it: publishing into the empty cell stores the
    sample and the thread goes on; publishing while an unread sample is
    in the cell leaves that sample in place and the thread waits inside
    [put]; either way the cell holds at most one sample.  The main
    thread's read returns at once: with the last sample it took when
    the cell is empty, and otherwise with the sample in the cell, which
    it removes, after which the waiting [put] goes through. *)
Theorem publish_waits_for_the_reader (v : list float) (w : World) :
  single_slot (Self.imu_queue (self w)) ->
  (Queue.items (Self.imu_queue (self w)) = [] ->
     Self.imu_queue (self (publish v w)) = Queue.mk 1 [v]
     /\ forall u, worker (publish v w) <> WPutting u)
  /\ (forall old, Queue.items (Self.imu_queue (self w)) = [old] ->
        publish v w = with_worker (WPutting v) w
        /\ fst (get_imu_data (publish v w)) = Ok (Some old)
        /\ Self.imu_queue (self (snd (get_imu_data (publish v w)))) = Queue.mk 1 []
        /\ Self.imu_queue (self (publish v (snd (get_imu_data (publish v w)))))
           = Queue.mk 1 [v])
  /\ (Queue.items (Self.imu_queue (self w)) = [] ->
        get_imu_data w = (Ok (Self.last_imu_data (self w)), w))
  /\ single_slot (Self.imu_queue (self (publish v w)))
  /\ single_slot (Self.imu_queue (self (snd (get_imu_data w)))).
Proof.
  intros Hq.
  destruct w as [s f wk wt t p]; destruct s; cbn in *.
  destruct (single_slot_cases _ Hq) as [-> | [old ->]];
    unfold publish, get_imu_data, single_slot; cbn.
  - split; [intros _ | split; [intros old [=] | split; [reflexivity | ]]].
    all: destruct (py_div _ _); try destruct (sleep_refusal _); cbn.
    all: repeat split; try discriminate; try lia.
  - split; [intros [=] | split; [intros old' [= <-] | split; [intros [=] | ]]].
    all: cbn; repeat split; try lia.
    all: destruct (py_div _ _); try destruct (sleep_refusal _); reflexivity.
Qed.

End SamplerFacts.

(* ================================================================== *)
(** ** Reasoning about statements *)

Section StatementFacts.
Context {RT : Runtime}.

Lemma preserves_ret {A : Type} (I : World -> Prop) (a : A) :
  preserves I (ret a).
Proof. intros w H. exact H. Qed.

Lemma preserves_lift {A : Type} (I : World -> Prop) (r : result A) :
  preserves I (lift r).
Proof. intros w H. exact H. Qed.

Lemma preserves_gets {A : Type} (I : World -> Prop) (f : World -> A) :
  preserves I (gets f).
Proof. intros w H. exact H. Qed.

Lemma preserves_modify (I : World -> Prop) (f : World -> World) :
  (forall w, I w -> I (f w)) -> preserves I (modify f).
Proof. intros Hf w H. apply Hf, H. Qed.

Lemma preserves_bind {A B : Type} (I : World -> Prop) (m : M A) (k : A -> M B) :
  preserves I m -> (forall a, preserves I (k a)) -> preserves I (bind m k).
Proof.
  intros Hm Hk w H. unfold bind.
  specialize (Hm w H). destruct (m w) as [[a | e] w1]; cbn in *.
  - apply Hk, Hm.
  - exact Hm.
Qed.

Lemma preserves_time_sleep (I : World -> Prop) (d : float) (r : result unit) :
  (forall w t, I w -> I (with_trace t w)) -> preserves I (time_sleep d r).
Proof.
  intros Ht. unfold time_sleep. destruct (sleep_refusal d).
  - apply preserves_lift.
  - apply preserves_bind; [apply preserves_modify | intros; apply preserves_lift].
    intros w H. apply Ht, H.
Qed.

Lemma world_eta (w : World) :
  w = mkWorld (Self.set_imu_queue (Self.imu_queue (self w)) (self w))
              (frame w) (worker w) (worker_trace w) (trace w) (pkl w).
Proof. destruct w as [[] ? ? ? ? ?]. reflexivity. Qed.

Lemma publish_footprint (v : list float) (w : World) :
  exists q wk wt,
    publish v w
    = mkWorld (Self.set_imu_queue q (self w)) (frame w) wk wt (trace w) (pkl w).
Proof.
  unfold publish. destruct (Queue.put _ v) as [q |].
  - destruct (py_div _ _); [destruct (sleep_refusal _) |];
      do 3 eexists; reflexivity.
  - exists (Self.imu_queue (self w)), (WPutting v), (worker_trace w).
    rewrite (world_eta w) at 1. reflexivity.
Qed.

Lemma resume_put_footprint (w : World) :
  exists q wk wt,
    resume_put w
    = mkWorld (Self.set_imu_queue q (self w)) (frame w) wk wt (trace w) (pkl w).
Proof.
  unfold resume_put. destruct (worker w) eqn:Hw; try apply publish_footprint.
  all: exists (Self.imu_queue (self w)), (worker w), (worker_trace w).
  all: apply world_eta.
Qed.

Lemma imu_worker_pass_footprint (r : result (list float)) (w : World) :
  exists q wk wt,
    imu_worker_pass r w
    = mkWorld (Self.set_imu_queue q (self w)) (frame w) wk wt (trace w) (pkl w).
Proof.
  pose proof world_eta as Hid.
  pose proof (fun v => publish_footprint v w) as Hpub.
  unfold imu_worker_pass.
  destruct (worker w) eqn:Hw; try apply Hpub;
    try (exists (Self.imu_queue (self w)), (worker w), (worker_trace w);
         apply Hid).
  destruct (match r with Ok raw => from_quat_as_euler raw | Raise e => Raise e end)
    as [euler | e].
  - destruct (py_index euler 1), (py_index euler 2), (py_index euler 0);
      try apply Hpub;
      exists (Self.imu_queue (self w)), (WDead IndexError), (worker_trace w);
      rewrite (Hid w) at 1; reflexivity.
  - destruct (is_Exception e).
    + exists (Self.imu_queue (self w)), (worker w), (worker_trace w ++ [PrintExn e]).
      rewrite (Hid w) at 1. reflexivity.
    + exists (Self.imu_queue (self w)), (WDead e), (worker_trace w).
      rewrite (Hid w) at 1. reflexivity.
Qed.

Lemma imu_worker_passes_footprint (rs : list (result (list float))) (w : World) :
  exists q wk wt,
    imu_worker_passes rs w
    = mkWorld (Self.set_imu_queue q (self w)) (frame w) wk wt (trace w) (pkl w).
Proof.
  revert w. induction rs as [| r rs IH]; intros w.
  - exists (Self.imu_queue (self w)), (worker w), (worker_trace w).
    apply world_eta.
  - change (imu_worker_passes (r :: rs) w)
      with (imu_worker_passes rs (imu_worker_pass r w)).
    destruct (imu_worker_pass_footprint r w) as (q1 & wk1 & wt1 & ->).
    destruct (IH (mkWorld (Self.set_imu_queue q1 (self w)) (frame w) wk1 wt1
                          (trace w) (pkl w))) as (q & wk & wt & ->).
    exists q, wk, wt. reflexivity.
Qed.

Lemma imu_worker_footprint (rs : list (result (list float))) (w : World) :
  exists q wk wt,
    imu_worker rs w
    = mkWorld (Self.set_imu_queue q (self w)) (frame w) wk wt (trace w) (pkl w).
Proof.
  unfold imu_worker.
  destruct (resume_put_footprint w) as (q1 & wk1 & wt1 & ->).
  destruct (imu_worker_passes_footprint rs
              (mkWorld (Self.set_imu_queue q1 (self w)) (frame w) wk1 wt1
                       (trace w) (pkl w))) as (q & wk & wt & ->).
  exists q, wk, wt. reflexivity.
Qed.

Lemma preserves_imu_worker (I : World -> Prop) (rs : list (result (list float))) :
  sampler_blind I -> preserves I (modify (imu_worker rs)).
Proof.
  intros HI. apply preserves_modify. intros w H.
  destruct (imu_worker_footprint rs w) as (q & wk & wt & ->). apply HI, H.
Qed.

End StatementFacts.

(* ================================================================== *)
(** ** What one pass and a whole session leave unchanged *)

Section LoopFacts.
Context {RT : Runtime}.

Lemma get_imu_data_eq (w : World) :
  get_imu_data w
  = match Queue.items (Self.imu_queue (self w)) with
    | [] => (Ok (Self.last_imu_data (self w)), w)
    | v :: rest =>
        (Ok (Some v),
         with_self (fun s => Self.set_last_imu_data (Some v)
                     (Self.set_imu_queue
                        (Queue.mk (Queue.maxsize (Self.imu_queue (self w))) rest) s)) w)
    end.
Proof.
  unfold get_imu_data, Queue.get_nowait.
  destruct (Queue.items (Self.imu_queue (self w))); reflexivity.
Qed.

Lemma preserves_get_imu_data (I : World -> Prop) :
  (forall w d q, I w ->
     I (with_self (fun s => Self.set_last_imu_data d (Self.set_imu_queue q s)) w)) ->
  preserves I get_imu_data.
Proof.
  intros HI w H. rewrite get_imu_data_eq.
  destruct (Queue.items (Self.imu_queue (self w))); cbn; [exact H | apply HI, H].
Qed.

Lemma preserves_loop (I : World -> Prop) (script : list IterEnv) :
  (forall env, preserves I (loop_body env)) -> preserves I (loop script).
Proof.
  intros Hbody. induction script as [| env rest IH]; cbn [loop].
  - apply preserves_ret.
  - apply preserves_bind; [apply Hbody |].
    intros [|]; [exact IH | apply preserves_ret].
Qed.

End LoopFacts.

(** Decomposes a sequence of statements; the side conditions on the
    invariant are closed by computation. *)
Ltac preserves_step :=
  lazymatch goal with
  | |- preserves _ (bind _ _) => apply preserves_bind; [ | intros ? ]
  | |- preserves _ (ret _) => apply preserves_ret
  | |- preserves _ (lift _) => apply preserves_lift
  | |- preserves _ (gets _) => apply preserves_gets
  | |- preserves _ (emit _) => apply preserves_modify; intros ? HI; exact HI
  | |- preserves _ (modify (imu_worker _)) =>
      apply preserves_imu_worker; intros ? ? ? ? HI; exact HI
  | |- preserves _ (modify _) => apply preserves_modify; intros ? HI; exact HI
  | |- preserves _ (time_sleep _ _) =>
      apply preserves_time_sleep; intros ? ? HI; exact HI
  | |- preserves _ get_imu_data =>
      apply preserves_get_imu_data; intros ? ? ? HI; exact HI
  | |- preserves _ (if ?c then _ else _) => destruct c
  | |- preserves _ (match ?x with _ => _ end) => destruct x
  | |- preserves _ (let _ := _ in _) => cbv zeta
  end.

Ltac preserves_tac :=
  unfold get_obs, infer_action, pace; repeat preserves_step.

Section SessionFacts.
Context {RT : Runtime}.

Lemma loop_body_static (env : IterEnv) x :
  preserves (fun w => static w = x) (loop_body env).
Proof. unfold loop_body. preserves_tac. Qed.

Lemma loop_static (script : list IterEnv) (w : World) :
  static (snd (loop script w)) = static w.
Proof.
  apply (preserves_loop (fun w' => static w' = static w)); [| reflexivity].
  intros env. apply loop_body_static.
Qed.

End SessionFacts.

(* ================================================================== *)
(** ** Following a statement that ended normally *)

Section Inversion.
Context {RT : Runtime}.

Lemma bind_ok {A B : Type} (m : M A) (k : A -> M B) (w w' : World) (b : B) :
  bind m k w = (Ok b, w') ->
  exists a w1, m w = (Ok a, w1) /\ k a w1 = (Ok b, w').
Proof.
  unfold bind. destruct (m w) as [[a | e] w1]; intros H.
  - exists a, w1. split; [reflexivity | exact H].
  - discriminate.
Qed.

Lemma ret_ok {A : Type} (x a : A) (w w' : World) :
  ret x w = (Ok a, w') -> a = x /\ w' = w.
Proof. unfold ret. intros [= ? ?]. subst. split; reflexivity. Qed.

Lemma lift_ok {A : Type} (r : result A) (a : A) (w w' : World) :
  lift r w = (Ok a, w') -> r = Ok a /\ w' = w.
Proof. unfold lift. intros [= ? ?]. subst. split; reflexivity. Qed.

Lemma gets_ok {A : Type} (f : World -> A) (a : A) (w w' : World) :
  gets f w = (Ok a, w') -> a = f w /\ w' = w.
Proof. unfold gets. intros [= ? ?]. subst. split; reflexivity. Qed.

Lemma modify_ok (f : World -> World) (a : unit) (w w' : World) :
  modify f w = (Ok a, w') -> w' = f w.
Proof. unfold modify. intros [= ?]. subst. reflexivity. Qed.

Lemma emit_ok (e : event) (a : unit) (w w' : World) :
  emit e w = (Ok a, w') -> w' = with_trace (trace w ++ [e]) w.
Proof. unfold emit, modify. intros [= ?]. subst. reflexivity. Qed.

Lemma time_sleep_ok (d : float) (r : result unit) (a : unit) (w w' : World) :
  time_sleep d r w = (Ok a, w') ->
  sleep_refusal d = None /\ w' = with_trace (trace w ++ [Sleep d]) w.
Proof.
  unfold time_sleep. destruct (sleep_refusal d); [discriminate |].
  unfold bind, emit, modify, lift. cbn. destruct r; intros [= ?]; subst.
  split; reflexivity.
Qed.

End Inversion.

Ltac minv_prim H :=
  lazymatch type of H with
  | ret _ _ = (Ok _, _) =>
      let E := fresh "E" in
      apply ret_ok in H; destruct H as [E ->];
      try discriminate E; try (injection E as E); try subst
  | lift _ _ = (Ok _, _) => apply lift_ok in H; destruct H as [H ->]
  | gets _ _ = (Ok _, _) => apply gets_ok in H; destruct H as [-> ->]
  | emit _ _ = (Ok _, _) => apply emit_ok in H; subst
  | modify _ _ = (Ok _, _) => apply modify_ok in H; subst
  | time_sleep _ _ _ = (Ok _, _) => apply time_sleep_ok in H; destruct H as [H ->]
  | _ => idtac
  end.

(** Splits [H : (s1 ;; s2 ;; ...) w = (Ok b, w')] into one fact per
    statement. *)
Ltac minv H :=
  cbv beta zeta in H;
  lazymatch type of H with
  | bind _ _ _ = (Ok _, _) =>
      let a := fresh "a" in
      let w1 := fresh "w" in
      let H1 := fresh "H" in
      apply bind_ok in H; destruct H as (a & w1 & H1 & H);
      minv H1; minv H
  | _ => minv_prim H
  end.

(** Projections out of updated states, computed without touching the
    numeric content. *)
Ltac wsimpl :=
  cbn [self frame worker worker_trace trace pkl
       with_self with_frame with_worker with_trace with_pkl worker_emit
       Self.set_obs_history Self.set_last_imu_data Self.set_imu_queue
       Self.set_prev_action Self.set_action_filter
       Self.debug_no_imu Self.commands Self.pitch_bias Self.rma Self.num_obs
       Self.obs_history_size Self.obs_history Self.last_imu_data Self.imu_queue
       Self.control_freq Self.linearVelocityScale Self.angularVelocityScale
       Self.dof_pos_scale Self.dof_vel_scale Self.action_scale Self.prev_action
       Self.mujoco_init_pos Self.isaac_init_pos Self.action_filter
       append_obs set_commands incr_i
       Locals.i Locals.robot_computed_obs Locals.commands
       static config entry boot fst snd] in *.

(* ================================================================== *)
(** ** One pass that runs to its end *)

Section PassFacts.
Context {RT : Runtime}.

Lemma np_flatten_ok (rows : list (list float)) (x : list float) :
  np_flatten rows = Ok x -> x = concat rows.
Proof.
  unfold np_flatten. destruct rows as [| r rows']; [intros [= <-]; reflexivity |].
  destruct (forallb _ _); [intros [= <-]; reflexivity | discriminate].
Qed.

Lemma np_concatenate_two (a b : list float) : np_concatenate [a; b] = a ++ b.
Proof. unfold np_concatenate. cbn. now rewrite app_nil_r. Qed.

Lemma infer_action_ok (obs : list float) (env : IterEnv) (w w' : World)
    (raw : list float) :
  infer_action obs env w = (Ok raw, w') ->
  action env = Ok raw
  /\ if Self.rma (self w)
     then exists lat,
         let h := last_n (Self.obs_history_size (self w))
                         (Self.obs_history (self w) ++ [obs]) in
         np_flatten h = Ok (concat h)
         /\ latent env = Ok lat
         /\ w' = with_trace (trace w ++ [AdaptationInfer (concat h);
                                         PolicyInfer (obs ++ lat)])
                            (with_self (Self.set_obs_history h) w)
     else w' = with_trace (trace w ++ [PolicyInfer obs]) w.
Proof.
  unfold infer_action. intros H. minv H.
  destruct (Self.rma (self w)); minv H; split; try assumption; try reflexivity.
  match goal with Hl : latent env = Ok ?l |- _ => exists l end.
  match goal with Hf : np_flatten _ = Ok _ |- _ =>
    pose proof (np_flatten_ok _ _ Hf); subst end.
  cbv zeta. repeat split; try assumption.
  rewrite np_concatenate_two. unfold with_trace, with_self. cbn.
  now rewrite <- app_assoc.
Qed.

Lemma orientation_read (w : World) (a : option (list float)) (w0 : World) :
  (if Self.debug_no_imu (self w) then ret (Some [1; 0; 0; 0]) else get_imu_data) w
  = (Ok a, w0) ->
  w0 = w
  \/ exists d q,
       w0 = with_self (fun s => Self.set_last_imu_data d (Self.set_imu_queue q s)) w.
Proof.
  destruct (Self.debug_no_imu (self w)).
  - intros H. minv H. now left.
  - rewrite get_imu_data_eq.
    destruct (Queue.items (Self.imu_queue (self w))); intros [= _ <-];
      [now left | right; eauto].
Qed.

(** The observation [get_obs] returns, part by part. *)
Lemma get_obs_ok (commands : list float) (env : IterEnv) (w w' : World)
    (obs : list float) :
  get_obs commands env w = (Ok (Some obs), w') ->
  exists dof_pos dof_vel d pos vel q pg,
    present_positions env = Ok dof_pos
    /\ present_velocities env = Ok dof_vel
    /\ np_sub dof_pos (firstn 13 (Self.mujoco_init_pos (self w))) = Ok d
    /\ mujoco_to_isaac (np_scale d (Self.dof_pos_scale (self w)) ++ [0; 0]) = Ok pos
    /\ mujoco_to_isaac (np_scale dof_vel (Self.dof_vel_scale (self w)) ++ [0; 0]) = Ok vel
    /\ quat_rotate_inverse q [0; 0; -1] = Ok pg
    /\ obs = pg ++ commands ++ pos ++ vel ++ Self.prev_action (self w)
    /\ frame w' = frame w
    /\ static w' = static w
    /\ Self.prev_action (self w') = Self.prev_action (self w)
    /\ Self.obs_history (self w') = Self.obs_history (self w)
    /\ Self.action_filter (self w') = Self.action_filter (self w)
    /\ trace w' = trace w ++ [GetPresentPositions; GetPresentVelocities].
Proof.
  unfold get_obs. intros H. minv H.
  match goal with
  | Ho : _ w = (Ok ?a, ?w0) |- _ =>
      destruct (orientation_read w a w0 Ho) as [-> | (d0 & q0 & ->)]
  end.
  all: destruct a as [q |]; minv H.
  all: wsimpl; unfold np_concatenate in *; cbn [concat app] in *.
  all: rewrite ?app_nil_r in *.
  all: do 5 eexists; exists q; eexists.
  all: repeat (split; [eassumption || reflexivity |]).
  all: rewrite <- ?app_assoc; reflexivity.
Qed.

Lemma pace_ok (start : float) (env : IterEnv) (w w' : World) (u : unit) :
  pace start env w = (Ok u, w') ->
  exists period,
    py_div 1 (Self.control_freq (self w)) = Ok period
    /\ sleep_refusal (py_max (period - (time_end env - start)) 0) = None
    /\ w' = with_trace
              (trace w ++ [Sleep (py_max (period - (time_end env - start)) 0)]) w.
Proof.
  unfold pace. intros H. minv H. eauto.
Qed.

(** A pass that reaches the end of the loop body, statement by
    statement. *)
Lemma loop_body_continue (env : IterEnv) (w w' : World) :
  loop_body env w = (Ok Continue, w') ->
  exists obs raw w1 w2 scaled f robot_action d cmd period,
    get_obs (Locals.commands (frame w)) env (imu_worker (sensor env) w)
    = (Ok (Some obs), w1)
    /\ infer_action obs env (with_frame (append_obs obs) w1) = (Ok raw, w2)
    /\ np_add (np_scale raw (Self.action_scale (self w))) (Self.isaac_init_pos (self w))
       = Ok scaled
    /\ push (Self.action_filter (self w)) scaled = Ok f
    /\ isaac_to_mujoco (get_filtered_action f) = Ok robot_action
    /\ make_action_dict robot_action mujoco_joints_order = Ok d
    /\ py_div 1 (Self.control_freq (self w)) = Ok period
    /\ Self.prev_action (self w') = raw
    /\ Self.action_filter (self w') = f
    /\ Self.obs_history (self w') = Self.obs_history (self w2)
    /\ Locals.robot_computed_obs (frame w')
       = Locals.robot_computed_obs (frame w) ++ [obs]
    /\ trace w' = trace w2 ++ [SetPositionAll d] ++ cmd
                  ++ [Sleep (py_max (period - (time_end env - time_start env)) 0)]
    /\ (if Self.commands (self w)
        then exists c, cmd = [GetCommand; PrintCommands c]
                       /\ Locals.commands (frame w') = c
        else cmd = [] /\ Locals.commands (frame w') = Locals.commands (frame w)).
Proof.
  unfold loop_body. intros H. minv H.
  destruct a0 as [obs |]; minv H.
  match goal with
  | Hc : (if ?c then _ else _) _ = (Ok _, _) |- _ => destruct c eqn:Hcmd; minv Hc
  end.
  all: match goal with
       | Hp : pace _ _ _ = (Ok _, _) |- _ =>
           apply pace_ok in Hp; destruct Hp as (period & Hperiod & _ & ->)
       end.
  all: match goal with
       | Hi : infer_action _ _ _ = (Ok ?raw, ?w2) |- _ =>
           pose proof (infer_action_ok _ _ _ _ _ Hi) as Hinfer
       end.
  all: match goal with
       | Hg : get_obs _ _ _ = (Ok _, ?w1) |- _ =>
           pose proof (get_obs_ok _ _ _ _ _ Hg) as Hobs
       end.
  all: destruct (imu_worker_footprint (sensor env) w) as (q & wk & wt & Hiw);
    rewrite Hiw in *; clear Hiw.
  all: destruct Hobs as (_ & _ & _ & _ & _ & _ & _ & _ & _ & _ & _ & _ & _
                           & _ & Hframe & Hstatic & Hprev & Hhist & Hfilt & Htrace).
  all: destruct w0 as [[] fr0 wk0 wt0 t0 p0]; wsimpl.
  all: injection Hstatic as; subst.
  all: destruct Hinfer as [Hact Hw1].
  all: destruct (Self.rma (self w)); [destruct Hw1 as (lat & _ & _ & Hw1) |];
    subst w1; wsimpl.
  all: match goal with
       | Hraw : action _ = Ok ?raw,
         Hs : np_add _ _ = Ok ?scaled,
         Hf : push _ _ = Ok ?f,
         Hr : isaac_to_mujoco _ = Ok ?ra,
         Hd : make_action_dict _ _ = Ok ?d |- _ =>
           exists obs, raw; do 2 eexists; exists scaled, f, ra, d
       end.
  all: lazymatch goal with
       | Hc : np_mul _ _ = Ok ?c |- _ => exists [GetCommand; PrintCommands c]
       | _ => exists []
       end.
  all: exists period.
  all: rewrite ?Hcmd.
  all: repeat (split; [eassumption || reflexivity |]).
  all: wsimpl; split; [rewrite <- ?app_assoc; reflexivity |].
  all: eauto.
Qed.

End PassFacts.

(* ================================================================== *)
(** ** What a session records *)

Section Recording.
Context {RT : Runtime}.

Lemma bind_eq {A B : Type} (m : M A) (k : A -> M B) (w : World) :
  bind m k w = match m w with
               | (Ok a, w') => k a w'
               | (Raise e, w') => (Raise e, w')
               end.
Proof. reflexivity. Qed.

(** When every continuation keeps [f], the value of [f] after
    [m ;; k] is the one [m] leaves. *)
Lemma bind_keeps {A B X : Type} (f : World -> X) (m : M A) (k : A -> M B)
    (w : World) :
  (forall a x, preserves (fun w' => f w' = x) (k a)) ->
  f (snd (bind m k w)) = f (snd (m w)).
Proof.
  intros Hk. rewrite bind_eq. destruct (m w) as [[a | e] w1]; cbn [snd].
  - apply (Hk a (f w1) w1). reflexivity.
  - reflexivity.
Qed.

Lemma preserves_eq {A X : Type} (f : World -> X) (m : M A) (w : World) :
  (forall x, preserves (fun w' => f w' = x) m) -> f (snd (m w)) = f w.
Proof. intros H. exact (H (f w) w eq_refl). Qed.

Lemma get_obs_keeps (commands : list float) (env : IterEnv) (w : World) :
  frame (snd (get_obs commands env w)) = frame w
  /\ Self.obs_history (self (snd (get_obs commands env w)))
     = Self.obs_history (self w)
  /\ static (snd (get_obs commands env w)) = static w.
Proof.
  repeat split.
  - apply (preserves_eq frame). intros x. preserves_tac.
  - apply (preserves_eq (fun w' => Self.obs_history (self w'))).
    intros x. preserves_tac.
  - apply (preserves_eq static). intros x. preserves_tac.
Qed.

(** The history after the policy call of a pass, however the call ends. *)
Lemma infer_action_history (obs : list float) (env : IterEnv) (w : World) :
  frame (snd (infer_action obs env w)) = frame w
  /\ Self.obs_history (self (snd (infer_action obs env w)))
     = if Self.rma (self w)
       then last_n (Self.obs_history_size (self w)) (Self.obs_history (self w) ++ [obs])
       else Self.obs_history (self w).
Proof.
  split.
  - apply (preserves_eq frame). intros x. preserves_tac.
  - unfold infer_action. rewrite bind_eq. cbn [gets].
    destruct (Self.rma (self w)).
    + cbv zeta. rewrite bind_eq. cbn [modify].
      match goal with
      | |- Self.obs_history (self (snd (?m ?w0))) = ?h =>
          transitivity (Self.obs_history (self w0)); [| reflexivity];
          apply (preserves_eq (fun w' => Self.obs_history (self w')) m w0)
      end.
      intros x. preserves_tac.
    + match goal with
      | |- Self.obs_history (self (snd (?m ?w0))) = ?h =>
          apply (preserves_eq (fun w' => Self.obs_history (self w')) m w0)
      end.
      intros x. preserves_tac.
Qed.

(** One pass, however it ends: what it adds to the recorded
    observations and to the history. *)
Lemma loop_body_records (env : IterEnv) (w : World) :
  match pass_obs env w with
  | Some obs =>
      Locals.robot_computed_obs (frame (snd (loop_body env w)))
      = Locals.robot_computed_obs (frame w) ++ [obs]
      /\ Self.obs_history (self (snd (loop_body env w)))
         = if Self.rma (self w)
           then last_n (Self.obs_history_size (self w))
                       (Self.obs_history (self w) ++ [obs])
           else Self.obs_history (self w)
  | None =>
      fst (loop_body env w) <> Ok Continue
      /\ Locals.robot_computed_obs (frame (snd (loop_body env w)))
         = Locals.robot_computed_obs (frame w)
      /\ Self.obs_history (self (snd (loop_body env w)))
         = Self.obs_history (self w)
  end.
Proof.
  unfold pass_obs, loop_body.
  rewrite bind_eq. cbn [modify]. rewrite bind_eq. cbn [gets]. rewrite bind_eq.
  pose proof (get_obs_keeps (Locals.commands (frame (imu_worker (sensor env) w)))
                env (imu_worker (sensor env) w)) as (Hf & Hh & Hs).
  destruct (imu_worker_footprint (sensor env) w) as (q & wk & wt & Hiw).
  rewrite Hiw in *. wsimpl. clear Hiw.
  destruct (get_obs _ _ _) as [[[obs |] | e] w1]; cbn [fst snd] in *.
  - rewrite bind_eq. cbn [modify].
    injection Hs as Hdebug Hcmd Hbias Hrma Hnum Hsize _.
    split.
    + rewrite (bind_keeps (fun w' => Locals.robot_computed_obs (frame w'))).
      * destruct (infer_action_history obs env (with_frame (append_obs obs) w1))
          as [-> _].
        wsimpl. now rewrite Hf.
      * intros a x. preserves_tac.
    + rewrite (bind_keeps (fun w' => Self.obs_history (self w'))).
      * destruct (infer_action_history obs env (with_frame (append_obs obs) w1))
          as [_ ->].
        wsimpl. now rewrite Hrma, Hsize, Hh.
      * intros a x. preserves_tac.
  - cbn. rewrite Hf, Hh. repeat split. discriminate.
  - rewrite Hf, Hh. repeat split. discriminate.
Qed.

Lemma loop_cons (env : IterEnv) (rest : list IterEnv) (w : World) :
  loop (env :: rest) w
  = match loop_body env w with
    | (Ok Continue, w') => loop rest w'
    | (Ok Break, w') => (Ok Exited, w')
    | (Raise e, w') => (Raise e, w')
    end.
Proof.
  cbn [loop]. rewrite bind_eq.
  destruct (loop_body env w) as [[[|] | e] w']; reflexivity.
Qed.

Lemma last_n_length {A : Type} (n : nat) (l : list A) :
  (0 < n <= length l)%nat -> length (last_n n l) = n.
Proof.
  unfold last_n. destruct n as [| n]; [lia |].
  intros H. rewrite length_skipn. lia.
Qed.

Lemma last_n_short {A : Type} (n : nat) (l : list A) :
  (length l <= n)%nat -> last_n n l = l.
Proof.
  unfold last_n. destruct n as [| n]; [reflexivity |].
  intros H. replace (length l - S n)%nat with 0%nat by lia. reflexivity.
Qed.

Lemma last_n_last_n_app {A : Type} (n : nat) (l l2 : list A) :
  last_n n (last_n n l ++ l2) = last_n n (l ++ l2).
Proof.
  destruct (Nat.le_gt_cases (length l) n) as [Hle | Hgt].
  - now rewrite (last_n_short n l Hle).
  - unfold last_n. destruct n as [| n]; [reflexivity |].
    rewrite !length_app, length_skipn.
    replace (length l - (length l - S n) + length l2 - S n)%nat
      with (length l2) by lia.
    replace (length l + length l2 - S n)%nat
      with (length l2 + (length l - S n))%nat by lia.
    rewrite <- skipn_skipn, (skipn_app (length l - S n) l l2).
    replace (length l - S n - length l)%nat with 0%nat by lia.
    reflexivity.
Qed.

(** A session, however it ends: the recorded observations are those
    assembled, in order; in adaptive mode the history is the last
    [obs_history_size] rows of what it was followed by them. *)
Lemma loop_records (script : list IterEnv) (w : World) :
  Locals.robot_computed_obs (frame (snd (loop script w)))
  = Locals.robot_computed_obs (frame w) ++ session_obs script w
  /\ (Self.rma (self w) = true ->
      (0 < Self.obs_history_size (self w))%nat ->
      length (Self.obs_history (self w)) = Self.obs_history_size (self w) ->
      Self.obs_history (self (snd (loop script w)))
      = last_n (Self.obs_history_size (self w))
               (Self.obs_history (self w) ++ session_obs script w)).
Proof.
  revert w. induction script as [| env rest IH]; intros w.
  - cbn. rewrite !app_nil_r. split; [reflexivity |].
    intros _ _ Hlen. symmetry. apply last_n_short. lia.
  - rewrite loop_cons. cbn [session_obs].
    pose proof (loop_body_records env w) as Hpass.
    pose proof (preserves_eq static (loop_body env) w
                  (fun x => loop_body_static env x)) as Hst.
    injection Hst as _ _ _ Hrma _ Hsize _.
    destruct (pass_obs env w) as [obs |].
    + destruct Hpass as [Hrec Hhist].
      destruct (loop_body env w) as [[[|] | e] w1]; cbn [fst snd] in *.
      * destruct (IH w1) as [IHrec IHhist]. rewrite IHrec, Hrec, <- app_assoc.
        split; [reflexivity |].
        intros Hr Hpos Hlen. rewrite Hr in *.
        rewrite IHhist, Hhist, Hsize; try assumption; try lia.
        -- rewrite last_n_last_n_app, <- app_assoc. reflexivity.
        -- rewrite Hhist, Hsize. apply last_n_length.
           rewrite length_app. cbn. lia.
      * rewrite Hrec. split; [reflexivity |].
        intros Hr _ _. rewrite Hr in Hhist. exact Hhist.
      * rewrite Hrec. split; [reflexivity |].
        intros Hr _ _. rewrite Hr in Hhist. exact Hhist.
    + destruct Hpass as (Hnc & Hrec & Hhist).
      destruct (loop_body env w) as [[[|] | e] w1]; cbn [fst snd] in *;
        try (now elim Hnc).
      all: rewrite Hrec, Hhist, !app_nil_r; split; [reflexivity |].
      all: intros _ _ Hlen; symmetry; apply last_n_short; lia.
Qed.

End Recording.

(* ================================================================== *)
(** ** The session as a whole *)

Section SessionTheorems.
Context {RT : Runtime}.

Lemma init_ok (control_freq : float) (debug_no_imu : bool)
    (action_scale cutoff_frequency : float) (commands : bool)
    (pitch_bias : float) (rma : bool) (s : Self.t) :
  Self.init control_freq debug_no_imu action_scale cutoff_frequency commands
            pitch_bias rma = Ok s ->
  Self.rma s = rma
  /\ Self.debug_no_imu s = debug_no_imu
  /\ Self.prev_action s = np_zeros 15
  /\ Self.obs_history s = (if rma then repeat (np_zeros 51) 15 else [])
  /\ Self.obs_history_size s = (if rma then 15%nat else 0%nat)
  /\ Self.last_imu_data s = (if debug_no_imu then None else Some [0; 0; 0; 0])
  /\ Self.imu_queue s = Queue.create 1
  /\ Self.mujoco_init_pos s = hwi_init_pos ++ [0; 0]
  /\ Self.control_freq s = control_freq.
Proof.
  unfold Self.init. destruct (mujoco_to_isaac _); [| discriminate].
  intros [= <-]. destruct rma, debug_no_imu; repeat split.
Qed.

Lemma run_self (script : list IterEnv) (w : World) :
  self (snd (run script w)) = self (snd (loop script (entry w)))
  /\ frame (snd (run script w)) = frame (snd (loop script (entry w))).
Proof.
  unfold run, dump_and_return.
  destruct (loop script (entry w)) as [[[|] | e] w1]; cbn [snd];
    try destruct (is_KeyboardInterrupt e); split; reflexivity.
Qed.

(** C3, as the code has it: when the loop is left because [get_obs]
    returned nothing or because of a [KeyboardInterrupt], [run] returns
    and the file holds every observation assembled in the session, in
    order; when any other exception leaves the loop (an inference
    failure is one), [run] ends with that exception and the file is
    not written. *)
Theorem run_dumps_unless_exception (script : list IterEnv) (w : World) :
  match fst (loop script (entry w)) with
  | Ok Exited | Raise KeyboardInterrupt =>
      fst (run script w) = Returned
      /\ pkl (snd (run script w)) = Some (session_obs script (entry w))
  | Raise (Exception cls msg) =>
      fst (run script w) = Raised (Exception cls msg)
      /\ pkl (snd (run script w)) = pkl w
  | Ok StillLooping =>
      fst (run script w) = Running
      /\ pkl (snd (run script w)) = pkl w
  end.
Proof.
  pose proof (loop_records script (entry w)) as [Hrec _].
  pose proof (loop_static script (entry w)) as Hst.
  unfold run, dump_and_return.
  destruct (loop script (entry w)) as [[[|] | [| cls msg]] w1];
    cbn [fst snd is_KeyboardInterrupt] in *;
    injection Hst as _ Hpkl; wsimpl; split; try reflexivity; try assumption.
  all: now rewrite Hrec.
Qed.

(** C10: in adaptive mode the history has fifteen rows when the
    constructor returns, and fifteen rows after any number of passes of
    a session, however the last of them ended. *)
Theorem obs_history_keeps_fifteen_rows (control_freq : float) (debug_no_imu : bool)
    (action_scale cutoff_frequency : float) (commands : bool)
    (pitch_bias : float) (s : Self.t) :
  Self.init control_freq debug_no_imu action_scale cutoff_frequency commands
            pitch_bias true = Ok s ->
  length (Self.obs_history s) = 15%nat
  /\ forall script,
       length (Self.obs_history (self (snd (run script (boot s))))) = 15%nat.
Proof.
  intros Hinit.
  destruct (init_ok _ _ _ _ _ _ _ _ Hinit) as (Hrma & _ & _ & Hh & Hsz & _).
  split; [rewrite Hh; apply repeat_length |].
  intros script. destruct (run_self script (boot s)) as [-> _].
  destruct (loop_records script (entry (boot s))) as [_ Hhist].
  wsimpl.
  rewrite Hhist; rewrite ?Hsz, ?Hh, ?repeat_length; try assumption; try lia.
  apply last_n_length. rewrite length_app, repeat_length. lia.
Qed.

End SessionTheorems.

(* ================================================================== *)
(** ** The observation vector *)

Section ObservationTheorems.
Context {RT : Runtime}.

Lemma zip_with_length (op : float -> float -> float) (a b : list float) :
  length (zip_with op a b) = Nat.min (length a) (length b).
Proof.
  revert b. induction a as [| x a IH]; intros [| y b]; cbn; try reflexivity.
  now rewrite IH.
Qed.

Lemma np_broadcast_length (op : float -> float -> float) (a b d : list float) :
  np_broadcast op a b = Ok d ->
  length b <> 1%nat ->
  length d = length b.
Proof.
  unfold np_broadcast. destruct (Nat.eqb_spec (length a) (length b)) as [E | _].
  - intros [= <-] _. rewrite zip_with_length. lia.
  - destruct a as [| x [| x' a]]; destruct b as [| y [| y' b]];
      intros [= <-]; cbn; intros; try rewrite length_map; try reflexivity; lia.
Qed.

Lemma last_n_app_tail {A : Type} (n : nat) (front tail : list A) :
  length tail = n -> (0 < n)%nat -> last_n n (front ++ tail) = tail.
Proof.
  intros Hl Hn. unfold last_n. destruct n as [| n]; [lia |].
  rewrite length_app, Hl.
  replace (length front + S n - S n)%nat with (length front + 0)%nat by lia.
  rewrite skipn_app, Nat.add_0_r, skipn_all.
  replace (length front - length front)%nat with 0%nat by lia. reflexivity.
Qed.

Lemma orientation_step (w : World) :
  exists w0,
    (if Self.debug_no_imu (self w) then ret (Some [1; 0; 0; 0]) else get_imu_data) w
    = (Ok (orientation_used w), w0)
    /\ frame w0 = frame w /\ trace w0 = trace w
    /\ config (self w0) = config (self w)
    /\ Self.prev_action (self w0) = Self.prev_action (self w)
    /\ (Self.debug_no_imu (self w) = true -> w0 = w)
    /\ (Self.debug_no_imu (self w) = false ->
        Self.last_imu_data (self w0) = orientation_used w
        /\ Self.imu_queue (self w0)
           = Queue.mk (Queue.maxsize (Self.imu_queue (self w)))
                      (tl (Queue.items (Self.imu_queue (self w))))).
Proof.
  unfold orientation_used.
  destruct (Self.debug_no_imu (self w)) eqn:Hd.
  - exists w. repeat split; try discriminate; auto.
  - rewrite get_imu_data_eq.
    destruct w as [s f wk wt t p]; destruct s as [? ? ? ? ? ? ? ? [m items] ? ? ? ? ? ? ? ? ? ?].
    cbn in *. destruct items as [| v rest]; eexists; repeat split; try discriminate; auto.
Qed.

Lemma get_obs_gravity (commands : list float) (env : IterEnv) (w w' : World)
    (obs : list float) :
  get_obs commands env w = (Ok (Some obs), w') ->
  exists q pg rest,
    orientation_used w = Some q
    /\ quat_rotate_inverse q [0; 0; -1] = Ok pg
    /\ obs = pg ++ commands ++ rest
    /\ (Self.debug_no_imu (self w) = false ->
        Self.last_imu_data (self w') = Some q
        /\ Queue.items (Self.imu_queue (self w'))
           = tl (Queue.items (Self.imu_queue (self w)))).
Proof.
  intros H. unfold get_obs in H. minv H.
  destruct (orientation_step w) as (w0' & Ho & _ & _ & _ & _ & _ & Himu).
  match goal with
  | Ho' : _ w = (Ok ?a, ?w0) |- _ =>
      rewrite Ho in Ho'; injection Ho' as <- <-
  end.
  destruct (orientation_used w) as [q |] eqn:Hq; minv H.
  wsimpl. unfold np_concatenate. cbn [concat].
  match goal with
  | Hg : quat_rotate_inverse q _ = Ok ?pg |- _ => exists q, pg
  end.
  eexists. rewrite app_nil_r.
  repeat split; try eassumption; try reflexivity.
  - now apply Himu.
  - destruct (Himu H) as [_ ->]. reflexivity.
Qed.





(** C9: the constructor leaves fifteen zeros as previous action, and
    the first observation a session assembles ends with them. *)
Theorem first_observation_ends_with_zeros (control_freq : float)
    (debug_no_imu : bool) (action_scale cutoff_frequency : float)
    (commands : bool) (pitch_bias : float) (rma : bool) (s : Self.t) :
  Self.init control_freq debug_no_imu action_scale cutoff_frequency commands
            pitch_bias rma = Ok s ->
  Self.prev_action s = repeat 0 15
  /\ forall script first rest,
       session_obs script (entry (boot s)) = first :: rest ->
       last_n 15 first = repeat 0 15.
Proof.
  intros Hinit.
  destruct (init_ok _ _ _ _ _ _ _ _ Hinit) as (_ & _ & Hprev & _).
  split; [exact Hprev |].
  intros [| env script] first rest; cbn [session_obs]; [discriminate |].
  unfold pass_obs.
  destruct (get_obs _ _ _) as [[[obs |] | e] w1] eqn:Hg; try discriminate.
  intros [= -> _].
  destruct (get_obs_ok _ _ _ _ _ Hg)
    as (dof_pos & dof_vel & d & pos & vel & q & pg & _ & _ & _ & _ & _ & _ & -> & _).
  destruct (imu_worker_footprint (sensor env) (entry (boot s)))
    as (q' & wk & wt & ->).
  wsimpl. rewrite Hprev, !app_assoc.
  apply last_n_app_tail; [apply repeat_length | lia].
Qed.

End ObservationTheorems.

(* ================================================================== *)
(** ** The action fed back and the pacing of the loop *)

Section PassTheorems.
Context {RT : Runtime}.

(** C6: after a pass, [prev_action] is the vector the policy returned
    in that pass, while the command sent to the motors in the same pass
    is built from that vector scaled, offset by the rest pose and
    filtered; the observation of the next pass ends with the vector as
    the policy returned it. *)
Theorem prev_action_is_raw_policy_output (env : IterEnv) (w w' : World) :
  loop_body env w = (Ok Continue, w') ->
  exists raw scaled f robot_action d,
    action env = Ok raw
    /\ Self.prev_action (self w') = raw
    /\ np_add (np_scale raw (Self.action_scale (self w)))
              (Self.isaac_init_pos (self w)) = Ok scaled
    /\ push (Self.action_filter (self w)) scaled = Ok f
    /\ isaac_to_mujoco (get_filtered_action f) = Ok robot_action
    /\ make_action_dict robot_action mujoco_joints_order = Ok d
    /\ In (SetPositionAll d) (trace w')
    /\ forall env' obs',
         pass_obs env' w' = Some obs' -> exists front, obs' = front ++ raw.
Proof.
  intros H.
  destruct (loop_body_continue _ _ _ H)
    as (obs & raw & w1 & w2 & scaled & f & ra & d & cmd & period
        & Hg & Hi & Hs & Hf & Hr & Hd & _ & Hprev & _ & _ & _ & Ht & _).
  destruct (infer_action_ok _ _ _ _ _ Hi) as [Hact _].
  exists raw, scaled, f, ra, d. repeat (split; [assumption |]).
  split.
  - rewrite Ht. apply in_or_app. right. now left.
  - clear Hg Hi H. intros env' obs'. unfold pass_obs.
    destruct (get_obs _ _ _) as [[[o |] | e] w3] eqn:Hg'; try discriminate.
    intros [= ->].
    destruct (get_obs_ok _ _ _ _ _ Hg')
      as (dof_pos & dof_vel & d' & pos & vel & q & pg
          & _ & _ & _ & _ & _ & _ & -> & _).
    destruct (imu_worker_footprint (sensor env') w') as (q' & wk & wt & ->).
    wsimpl. rewrite Hprev.
    eexists. rewrite !app_assoc. reflexivity.
Qed.

Lemma py_max_zero_nonneg (x : float) : (py_max x 0 <? 0) = false.
Proof.
  unfold py_max. destruct (x <? 0) eqn:E; [reflexivity | exact E].
Qed.

(** When the work of a pass took longer than the period, the pacing
    statement raises nothing of its own: it sleeps for zero seconds and
    ends the way the environment lets a sleep end. *)
Lemma overrun_sleeps_zero (start : float) (env : IterEnv) (w : World)
    (period : float) :
  py_div 1 (Self.control_freq (self w)) = Ok period ->
  (period - (time_end env - start) <? 0) = true ->
  pace start env w = (sleep env, with_trace (trace w ++ [Sleep 0]) w).
Proof.
  intros Hp Hneg. unfold pace. cbv zeta.
  rewrite bind_eq. cbn [gets]. rewrite bind_eq, Hp. cbn [lift].
  unfold py_max. rewrite Hneg. unfold time_sleep.
  replace (sleep_refusal 0) with (@None exn) by (vm_compute; reflexivity).
  rewrite bind_eq. cbn [emit modify lift]. reflexivity.
Qed.

(** The same for a pass that ends within the period: the pacing
    statement sleeps for what is left of it. *)
Lemma in_time_sleeps_the_rest (start : float) (env : IterEnv) (w : World)
    (period : float) :
  py_div 1 (Self.control_freq (self w)) = Ok period ->
  (period - (time_end env - start) <? 0) = false ->
  sleep_refusal (period - (time_end env - start)) = None ->
  pace start env w
  = (sleep env,
     with_trace (trace w ++ [Sleep (period - (time_end env - start))]) w).
Proof.
  intros Hp Hneg Hok. unfold pace. cbv zeta.
  rewrite bind_eq. cbn [gets]. rewrite bind_eq, Hp. cbn [lift].
  unfold py_max. rewrite Hneg. unfold time_sleep. rewrite Hok.
  rewrite bind_eq. cbn [emit modify lift]. reflexivity.
Qed.

(** C8: a pass that reaches its end has slept last.  With [period] for
    [1 / control_freq] (the frequency is not zero) and [rest] for
    [period] minus the time between the two clock readings of this
    pass, it has slept for [rest] seconds when [rest] is not negative
    and for zero seconds when it is; the duration is never negative.
    The control frequency is the same for the next pass, and at this
    frequency the pacing statement of any pass that overran sleeps for
    zero seconds, raises nothing of its own and changes nothing but the
    trace: no pass hands a timing debt to the next. *)
Theorem pass_sleeps_the_rest_of_the_period (env : IterEnv) (w w' : World) :
  loop_body env w = (Ok Continue, w') ->
  exists period rest before,
    (Self.control_freq (self w) =? 0) = false
    /\ period = 1 / Self.control_freq (self w)
    /\ rest = period - (time_end env - time_start env)
    /\ trace w' = before ++ [Sleep (if rest <? 0 then 0 else rest)]
    /\ ((rest <? 0) = false -> trace w' = before ++ [Sleep rest])
    /\ ((rest <? 0) = true -> trace w' = before ++ [Sleep 0])
    /\ ((if rest <? 0 then 0 else rest) <? 0) = false
    /\ Self.control_freq (self w') = Self.control_freq (self w)
    /\ (forall start env0 w0,
          Self.control_freq (self w0) = Self.control_freq (self w) ->
          (period - (time_end env0 - start) <? 0) = true ->
          pace start env0 w0
          = (sleep env0, with_trace (trace w0 ++ [Sleep 0]) w0))
    /\ (forall start env0 w0,
          Self.control_freq (self w0) = Self.control_freq (self w) ->
          (period - (time_end env0 - start) <? 0) = false ->
          sleep_refusal (period - (time_end env0 - start)) = None ->
          pace start env0 w0
          = (sleep env0,
             with_trace (trace w0 ++ [Sleep (period - (time_end env0 - start))])
                        w0)).
Proof.
  intros H.
  destruct (loop_body_continue _ _ _ H)
    as (obs & raw & w1 & w2 & scaled & f & ra & d & cmd & period
        & _ & _ & _ & _ & _ & _ & Hp & _ & _ & _ & _ & Ht & _).
  assert (Hcf : (Self.control_freq (self w) =? 0) = false
                /\ period = 1 / Self.control_freq (self w)).
  { unfold py_div in Hp. destruct (Self.control_freq (self w) =? 0).
    - discriminate.
    - injection Hp as <-. split; reflexivity. }
  destruct Hcf as [Hcf Hperiod].
  exists period, (period - (time_end env - time_start env)),
         (trace w2 ++ [SetPositionAll d] ++ cmd).
  unfold py_max in Ht.
  split; [exact Hcf |]. split; [exact Hperiod |]. split; [reflexivity |].
  split; [rewrite Ht, <- !app_assoc; reflexivity |].
  split; [intros E; rewrite Ht, E, <- !app_assoc; reflexivity |].
  split; [intros E; rewrite Ht, E, <- !app_assoc; reflexivity |].
  split.
  { destruct (period - (time_end env - time_start env) <? 0) eqn:E;
      [reflexivity | exact E]. }
  split.
  { pose proof (preserves_eq static (loop_body env) w
                  (fun x => loop_body_static env x)) as Hst.
    rewrite H in Hst. cbn [snd] in Hst.
    now injection Hst as _ _ _ _ _ _ Hc _. }
  split.
  - intros start env0 w0 Hc Hneg. apply overrun_sleeps_zero with period.
    + now rewrite Hc.
    + exact Hneg.
  - intros start env0 w0 Hc Hneg Hok. apply in_time_sleeps_the_rest.
    + now rewrite Hc.
    + exact Hneg.
    + exact Hok.
Qed.

End PassTheorems.

(* ================================================================== *)
(** ** The adaptive mode *)

Section AdaptiveTheorems.
Context {RT : Runtime}.






End AdaptiveTheorems.

(* ================================================================== *)
(** ** The missing-orientation signal *)

Section OrientationTheorems.
Context {RT : Runtime}.

Lemma get_obs_not_none (commands : list float) (env : IterEnv) (w : World) :
  has_orientation w -> fst (get_obs commands env w) <> Ok None.
Proof.
  intros Hinv Hcontra.
  destruct (get_obs commands env w) as [r w'] eqn:H. cbn [fst] in Hcontra.
  subst r. unfold get_obs in H. minv H.
  match goal with
  | Ho : _ w = (Ok ?a, _) |- _ => destruct a as [q |]; [minv H |]
  end.
  destruct (Self.debug_no_imu (self w)) eqn:Hd.
  - match goal with Ho : ret _ _ = _ |- _ => minv Ho end.
  - destruct Hinv as [Hinv | Hinv]; [congruence |].
    match goal with Ho : get_imu_data _ = _ |- _ => rewrite get_imu_data_eq in Ho;
      destruct (Queue.items (Self.imu_queue (self w))); injection Ho as Hl _ end.
    + contradiction.
    + discriminate.
Qed.

Lemma has_orientation_get_imu_data : preserves has_orientation get_imu_data.
Proof.
  intros w H. rewrite get_imu_data_eq.
  destruct (Queue.items (Self.imu_queue (self w))); [exact H |].
  right. cbn. discriminate.
Qed.

Lemma has_orientation_loop_body (env : IterEnv) :
  preserves has_orientation (loop_body env).
Proof.
  unfold loop_body. preserves_tac.
  apply has_orientation_get_imu_data.
  all: preserves_tac.
Qed.

Lemma loop_body_not_break (env : IterEnv) (w : World) :
  has_orientation w -> fst (loop_body env w) <> Ok Break.
Proof.
  intros Hinv Hcontra.
  destruct (loop_body env w) as [r w'] eqn:H. cbn [fst] in Hcontra. subst r.
  unfold loop_body in H. minv H.
  match goal with
  | Hg : get_obs _ _ _ = (Ok ?a, _) |- _ => destruct a as [obs |]; [minv H |]
  end.
  match goal with
  | Hg : get_obs ?c ?e ?w1 = (Ok None, ?w2) |- _ =>
      apply (get_obs_not_none c e w1); [| now rewrite Hg]
  end.
  destruct (imu_worker_footprint (sensor env) w) as (q & wk & wt & ->).
  exact Hinv.
Qed.

(** C2, as the code has it: an object built with the IMU enabled starts
    with nothing in the cell and with four zeros as last orientation;
    for it [get_obs] never returns [None], whether the sampler has
    published or not, and no session leaves the loop through the
    missing-orientation branch. *)
Theorem missing_orientation_is_never_signalled (control_freq : float)
    (action_scale cutoff_frequency : float) (commands : bool)
    (pitch_bias : float) (rma : bool) (s : Self.t) :
  Self.init control_freq false action_scale cutoff_frequency commands
            pitch_bias rma = Ok s ->
  Queue.items (Self.imu_queue s) = []
  /\ Self.last_imu_data s = Some [0; 0; 0; 0]
  /\ (forall cmd env, fst (get_obs cmd env (boot s)) <> Ok None)
  /\ (forall script, fst (loop script (entry (boot s))) <> Ok Exited).
Proof.
  intros Hinit.
  destruct (init_ok _ _ _ _ _ _ _ _ Hinit)
    as (_ & _ & _ & _ & _ & Hlast & Hq & _).
  assert (Hinv : has_orientation (entry (boot s))).
  { right. cbn. rewrite Hlast. discriminate. }
  rewrite Hq, Hlast. repeat split.
  - intros cmd env. apply get_obs_not_none. exact Hinv.
  - intros script. generalize dependent (entry (boot s)).
    induction script as [| env rest IH]; intros w Hw; [discriminate |].
    rewrite loop_cons.
    pose proof (loop_body_not_break env w Hw) as Hnb.
    pose proof (has_orientation_loop_body env w Hw) as Hnext.
    destruct (loop_body env w) as [[[|] | e] w1]; cbn [fst snd] in *.
    + apply IH, Hnext.
    + now elim Hnb.
    + discriminate.
Qed.

End OrientationTheorems.

(* ================================================================== *)
(** ** Concrete sessions on the test double *)

Lemma robot_built (rma : bool) :
  Stub.robot rma = Ok (self (Stub.world rma)).
Proof. destruct rma; vm_compute; reflexivity. Qed.

(** Two failed reads in a row. *)
Lemma sampler_survives_read_failures_witness :
  worker Stub.w0 = WReady
  /\ imu_worker [Raise Stub.timeout; Raise Stub.timeout] Stub.w0
     = mkWorld (self Stub.w0) (frame Stub.w0) WReady
               [PrintExn Stub.timeout; PrintExn Stub.timeout]
               (trace Stub.w0) (pkl Stub.w0).
Proof.
  split; [reflexivity |].
  apply (sampler_survives_read_failures [Stub.timeout; Stub.timeout] Stub.w0);
    [reflexivity | repeat constructor].
Defined.

(** C1 as stated fails: two samples published with no read in between.
    The cell keeps the first, older one; the thread waits inside [put]
    with the second; the next read of the main thread gets the first. *)
Lemma publish_keeps_the_unread_sample :
  Queue.items (Self.imu_queue
                 (self (publish Stub.newer (publish Stub.older Stub.w0))))
  = [Stub.older]
  /\ worker (publish Stub.newer (publish Stub.older Stub.w0))
     = WPutting Stub.newer
  /\ fst (get_imu_data (publish Stub.newer (publish Stub.older Stub.w0)))
     = Ok (Some Stub.older).
Proof. vm_compute. repeat split. Qed.

(** The same through the loop of the thread: two good readings. *)
Example second_reading_waits :
  worker (imu_worker [Ok Stub.older; Ok Stub.newer] Stub.w0)
  = WPutting [2; 4; 1; 1]
  /\ Queue.items (Self.imu_queue
                    (self (imu_worker [Ok Stub.older; Ok Stub.newer] Stub.w0)))
     = [[0.25; 0.5; 0.125; 1]].
Proof. vm_compute. split; reflexivity. Qed.

Lemma publish_waits_for_the_reader_witness :
  single_slot (Self.imu_queue (self Stub.w0))
  /\ Self.imu_queue (self (publish [0; 0; 0; 1] Stub.w0))
     = Queue.mk 1 [[0; 0; 0; 1]].
Proof.
  assert (H : single_slot (Self.imu_queue (self Stub.w0))).
  { split; [reflexivity | cbn; lia]. }
  split; [exact H |].
  apply (publish_waits_for_the_reader [0; 0; 0; 1] Stub.w0 H). reflexivity.
Defined.

(** Nothing was ever published, and [get_obs] returns a vector. *)
Lemma missing_orientation_is_never_signalled_witness :
  Stub.robot false = Ok (self Stub.w0)
  /\ Queue.items (Self.imu_queue (self Stub.w0)) = []
  /\ fst (get_obs [0; 0; 0] Stub.pass Stub.w0) = Ok (Some Stub.first_obs)
  /\ fst (get_obs [0; 0; 0] Stub.pass Stub.w0) <> Ok None.
Proof.
  pose proof (missing_orientation_is_never_signalled
                30 0.25 10 false 0 false (self Stub.w0) (robot_built false))
    as (Hq & _ & Hobs & _).
  split; [apply robot_built |]. split; [exact Hq |].
  split; [vm_compute; reflexivity |].
  exact (Hobs [0; 0; 0] Stub.pass).
Defined.

(** Three passes during which every sensor read fails: the session is
    still running and nothing has been printed by the main thread. *)
Example session_without_orientation_goes_on :
  fst (run [Stub.blind_pass; Stub.blind_pass; Stub.blind_pass] Stub.w0) = Running
  /\ length (Locals.robot_computed_obs
               (frame (snd (run [Stub.blind_pass; Stub.blind_pass;
                                 Stub.blind_pass] Stub.w0)))) = 3%nat
  /\ ~ In (Print "IMU ERROR")
          (trace (snd (run [Stub.blind_pass; Stub.blind_pass; Stub.blind_pass]
                           Stub.w0))).
Proof.
  vm_compute. split; [reflexivity |]. split; [reflexivity |].
  intros H. repeat (destruct H as [H | H]; [discriminate H |]). exact H.
Qed.

(** C3 as stated fails: the policy raises in the second pass; [run]
    ends with the exception and the two observations assembled so far
    are not written. *)
Lemma inference_failure_leaves_no_file :
  fst (run Stub.failing_session Stub.w0) = Raised Stub.inference_failed
  /\ pkl (snd (run Stub.failing_session Stub.w0)) = None
  /\ session_obs Stub.failing_session (entry Stub.w0)
     = [Stub.first_obs; Stub.second_obs].
Proof. vm_compute. repeat split. Qed.

(** The same session ended by the user instead: the file is written. *)
Example interrupted_session_is_written :
  fst (run [Stub.pass; Stub.quiet (Raise KeyboardInterrupt)] Stub.w0) = Returned
  /\ pkl (snd (run [Stub.pass; Stub.quiet (Raise KeyboardInterrupt)] Stub.w0))
     = Some [Stub.first_obs; Stub.second_obs].
Proof. vm_compute. split; reflexivity. Qed.



Lemma first_observation_ends_with_zeros_witness :
  Stub.robot false = Ok (self Stub.w0)
  /\ session_obs [Stub.pass] (entry Stub.w0) = [Stub.first_obs]
  /\ last_n 15 Stub.first_obs = repeat 0 15.
Proof.
  assert (H : session_obs [Stub.pass] (entry (boot (self Stub.w0)))
              = [Stub.first_obs])
    by (vm_compute; reflexivity).
  split; [apply robot_built |]. split; [exact H |].
  exact (proj2 (first_observation_ends_with_zeros
                  30 false 0.25 10 false 0 false (self Stub.w0)
                  (robot_built false))
               [Stub.pass] Stub.first_obs [] H).
Defined.

Lemma obs_history_keeps_fifteen_rows_witness :
  Stub.robot true = Ok (self Stub.w0_rma)
  /\ length (Self.obs_history
               (self (snd (run [Stub.pass; Stub.pass]
                               (boot (self Stub.w0_rma)))))) = 15%nat.
Proof.
  split; [apply robot_built |].
  exact (proj2 (obs_history_keeps_fifteen_rows
                  30 false 0.25 10 false 0 (self Stub.w0_rma)
                  (robot_built true))
               [Stub.pass; Stub.pass]).
Defined.


(** Seventeen passes: the window holds the fifteen latest observations. *)
Example window_after_seventeen_passes :
  Self.obs_history (self (snd (loop (repeat Stub.pass 17) (entry Stub.w0_rma))))
  = repeat Stub.second_obs 15.
Proof. vm_compute. reflexivity. Qed.

Lemma prev_action_is_raw_policy_output_witness :
  loop_body Stub.pass (entry Stub.w0) = (Ok Continue, Stub.w1)
  /\ Self.prev_action (self Stub.w1) = Stub.ones.
Proof.
  assert (H : loop_body Stub.pass (entry Stub.w0) = (Ok Continue, Stub.w1))
    by (vm_compute; reflexivity).
  split; [exact H |].
  destruct (prev_action_is_raw_policy_output Stub.pass (entry Stub.w0)
              Stub.w1 H)
    as (raw & scaled & f & ra & d & Hraw & Hprev & _).
  rewrite Hprev. now injection Hraw as <-.
Defined.

(** A pass of ten milliseconds at thirty hertz sleeps for the rest of
    the thirtieth of a second. *)
Lemma pass_sleeps_the_rest_of_the_period_witness :
  loop_body Stub.pass (entry Stub.w0) = (Ok Continue, Stub.w1)
  /\ (0 <? 1 / 30 - (100.01 - 100)) = true
  /\ exists before,
       trace Stub.w1 = before ++ [Sleep (1 / 30 - (100.01 - 100))].
Proof.
  assert (H : loop_body Stub.pass (entry Stub.w0) = (Ok Continue, Stub.w1))
    by (vm_compute; reflexivity).
  split; [exact H |]. split; [vm_compute; reflexivity |].
  destruct (pass_sleeps_the_rest_of_the_period Stub.pass (entry Stub.w0)
              Stub.w1 H)
    as (period & rest & before & _ & -> & -> & _ & Hrest & _).
  exists before. apply Hrest. vm_compute. reflexivity.
Defined.

(** A pass of fifty milliseconds at thirty hertz: no sleep. *)
Example overrun_at_thirty_hertz :
  py_div 1 30 = Ok (1 / 30)
  /\ (1 / 30 - (100.05 - 100) <? 0) = true
  /\ py_max (1 / 30 - (100.05 - 100)) 0 = 0.
Proof. vm_compute. repeat split. Qed.

(** What [time.sleep] refuses: a NaN, a duration beyond the range of
    the nanosecond count on either side, a negative one, and the
    duration of exactly [2^63] nanoseconds. *)
Example sleep_refusals :
  sleep_refusal (0 / 0) = Some (ValueError "Invalid value NaN (not a number)")
  /\ sleep_refusal 1e10
     = Some (OverflowError "timestamp too large to convert to C _PyTime_t")
  /\ sleep_refusal (-1e10)
     = Some (OverflowError "timestamp too large to convert to C _PyTime_t")
  /\ sleep_refusal (0x1p63 / 1e9)
     = Some (ValueError "sleep length must be non-negative")
  /\ sleep_refusal (-0.5) = Some (ValueError "sleep length must be non-negative")
  /\ sleep_refusal 0 = None
  /\ sleep_refusal (1 / 30) = None.
Proof. vm_compute. repeat split. Qed.

(* ================================================================== *)
(** * Further properties of the two scripts *)

(** ** The sampler thread and the cell *)

Section SamplerExtras.
Context {RT : Runtime}.

Lemma publish_single_slot (v : list float) (w : World) :
  single_slot (Self.imu_queue (self w)) ->
  single_slot (Self.imu_queue (self (publish v w))).
Proof.
  intros Hq. destruct w as [s f wk wt t p]; destruct s; cbn in *.
  destruct (single_slot_cases _ Hq) as [-> | [old ->]];
    unfold publish, single_slot; cbn;
    try destruct (py_div _ _); try destruct (sleep_refusal _); cbn;
    split; try reflexivity; lia.
Qed.

Lemma imu_worker_pass_single_slot (r : result (list float)) (w : World) :
  single_slot (Self.imu_queue (self w)) ->
  single_slot (Self.imu_queue (self (imu_worker_pass r w))).
Proof.
  intros Hq. unfold imu_worker_pass.
  destruct (worker w); try exact Hq; try (apply publish_single_slot, Hq).
  destruct (match r with Ok raw => from_quat_as_euler raw | Raise e => Raise e end)
    as [euler | e].
  - destruct (py_index euler 1), (py_index euler 2), (py_index euler 0);
      try exact Hq. apply publish_single_slot, Hq.
  - destruct (is_Exception e); exact Hq.
Qed.

Lemma imu_worker_single_slot (rs : list (result (list float))) (w : World) :
  single_slot (Self.imu_queue (self w)) ->
  single_slot (Self.imu_queue (self (imu_worker rs w))).
Proof.
  intros Hq. unfold imu_worker.
  assert (Hr : single_slot (Self.imu_queue (self (resume_put w)))).
  { unfold resume_put. destruct (worker w); try exact Hq.
    apply publish_single_slot, Hq. }
  revert Hr. generalize (resume_put w). clear w Hq.
  induction rs as [| r rs IH]; intros w Hq; [exact Hq |].
  change (imu_worker_passes (r :: rs) w)
    with (imu_worker_passes rs (imu_worker_pass r w)).
  apply IH, imu_worker_pass_single_slot, Hq.
Qed.

(** X1: The sampler thread, whatever the sensor answers and however long it
    runs, leaves every attribute of the object but the queue as it
    was, and touches neither the locals of [run], nor the effects of
    the main thread, nor the file. *)
Theorem sampler_touches_only_the_queue (readings : list (result (list float)))
    (w : World) :
  frame (imu_worker readings w) = frame w
  /\ trace (imu_worker readings w) = trace w
  /\ pkl (imu_worker readings w) = pkl w
  /\ Self.last_imu_data (self (imu_worker readings w)) = Self.last_imu_data (self w)
  /\ Self.prev_action (self (imu_worker readings w)) = Self.prev_action (self w)
  /\ Self.obs_history (self (imu_worker readings w)) = Self.obs_history (self w)
  /\ Self.action_filter (self (imu_worker readings w)) = Self.action_filter (self w)
  /\ config (self (imu_worker readings w)) = config (self w).
Proof.
  destruct (imu_worker_footprint readings w) as (q & wk & wt & ->).
  repeat split.
Qed.

(** X2: After any number of failed reads, the first reading that converts
    is published with the axes in the order (y, z, x) and the pitch
    bias added to the middle one, provided the cell is empty; the
    thread is then not waiting. *)
Theorem first_good_reading_is_published (errs : list exn)
    (raw : list float) (ex ey ez : float) (w : World) :
  worker w = WReady ->
  Self.imu_queue (self w) = Queue.mk 1 [] ->
  Forall (fun e => is_Exception e = true) errs ->
  from_quat_as_euler raw = Ok [ex; ey; ez] ->
  Self.imu_queue (self (imu_worker (map Raise errs ++ [Ok raw]) w))
  = Queue.mk 1 [from_euler_as_quat
                  [ey; ez + deg2rad (Self.pitch_bias (self w)); ex]]
  /\ (forall u, worker (imu_worker (map Raise errs ++ [Ok raw]) w) <> WPutting u)
  /\ exists last,
       worker_trace (imu_worker (map Raise errs ++ [Ok raw]) w)
       = worker_trace w ++ map PrintExn errs ++ last
       /\ Forall (fun e => exists d, e = Sleep d) last.
Proof.
  intros Hw Hq Herrs Hraw. rewrite (imu_worker_ready _ _ Hw). revert w Hw Hq.
  induction Herrs as [| e errs He _ IH]; intros w Hw Hq.
  - cbn [map app imu_worker_passes fold_left]. unfold imu_worker_pass.
    rewrite Hw, Hraw. cbn [py_index nth_error]. unfold publish.
    rewrite Hq. cbn [Queue.put Queue.full Queue.maxsize Queue.items length
                     Nat.ltb Nat.leb andb app].
    cbn [self with_self Self.set_imu_queue Self.control_freq].
    destruct (py_div _ _) as [d | e']; [destruct (sleep_refusal d) |];
      cbn; (split; [reflexivity |]); (split; [discriminate |]).
    + exists []. rewrite app_nil_r. split; [reflexivity | constructor].
    + exists [Sleep d]. split; [reflexivity |].
      constructor; [now exists d | constructor].
    + exists []. rewrite app_nil_r. split; [reflexivity | constructor].
  - change (imu_worker_passes (map Raise (e :: errs) ++ [Ok raw]) w)
      with (imu_worker_passes (map Raise errs ++ [Ok raw])
              (imu_worker_pass (Raise e) w)).
    rewrite (failed_read_pass e w Hw He).
    destruct (IH (worker_emit (PrintExn e) w) Hw Hq) as (H1 & H2 & last & H3 & H4).
    split; [exact H1 |]. split; [exact H2 |].
    exists last. split; [| exact H4].
    rewrite H3. cbn. now rewrite <- app_assoc.
Qed.

(** X3: [get_imu_data] never raises.  It hands out the sample in the cell
    and remembers it, or, with an empty cell, the sample it remembers;
    a second call with no publish in between returns the same sample
    and changes nothing. *)
Theorem get_imu_data_holds_the_last_sample (w : World) :
  single_slot (Self.imu_queue (self w)) ->
  exists d w1,
    get_imu_data w = (Ok d, w1)
    /\ d = match Queue.items (Self.imu_queue (self w)) with
           | v :: _ => Some v
           | [] => Self.last_imu_data (self w)
           end
    /\ Self.last_imu_data (self w1) = d
    /\ Queue.items (Self.imu_queue (self w1)) = []
    /\ get_imu_data w1 = (Ok d, w1).
Proof.
  intros Hq. rewrite get_imu_data_eq.
  destruct w as [s f wk wt t p]; destruct s; cbn in *.
  destruct (single_slot_cases _ Hq) as [-> | [old ->]]; cbn.
  - do 2 eexists. repeat split.
  - do 2 eexists. repeat split.
Qed.

End SamplerExtras.

(* ================================================================== *)
(** ** [get_obs]: orientation, shapes, and what it leaves behind *)

Section ObservationExtras.
Context {RT : Runtime}.

(** X5: With the IMU enabled, [get_obs] computes the gravity part from the
    sample in the cell if there is one and from the last sample taken
    otherwise; the sample it used is the one remembered afterwards, and
    the cell has lost its first sample. *)
Theorem get_obs_uses_the_latest_available_sample (commands : list float)
    (env : IterEnv) (w w' : World) (obs : list float) :
  Self.debug_no_imu (self w) = false ->
  get_obs commands env w = (Ok (Some obs), w') ->
  exists q pg rest,
    match Queue.items (Self.imu_queue (self w)) with
    | v :: _ => q = v
    | [] => Self.last_imu_data (self w) = Some q
    end
    /\ quat_rotate_inverse q [0; 0; -1] = Ok pg
    /\ obs = pg ++ commands ++ rest
    /\ Self.last_imu_data (self w') = Some q
    /\ Queue.items (Self.imu_queue (self w'))
       = tl (Queue.items (Self.imu_queue (self w))).
Proof.
  intros Hd H.
  destruct (get_obs_gravity _ _ _ _ _ H) as (q & pg & rest & Hq & Hpg & Hobs & Himu).
  destruct (Himu Hd) as [Hlast Hqueue].
  exists q, pg, rest. repeat split; try assumption.
  unfold orientation_used in Hq. rewrite Hd in Hq.
  destruct (Queue.items (Self.imu_queue (self w))); [exact Hq |].
  now injection Hq as ->.
Qed.

(** X6: In debug mode [get_obs] works with the quaternion [1, 0, 0, 0],
    changes no attribute of the object (the queue included), and never
    returns [None]. *)
Theorem get_obs_debug_mode (commands : list float) (env : IterEnv) (w : World) :
  Self.debug_no_imu (self w) = true ->
  self (snd (get_obs commands env w)) = self w
  /\ fst (get_obs commands env w) <> Ok None
  /\ forall obs,
       fst (get_obs commands env w) = Ok (Some obs) ->
       exists pg rest,
         quat_rotate_inverse [1; 0; 0; 0] [0; 0; -1] = Ok pg
         /\ obs = pg ++ commands ++ rest.
Proof.
  intros Hd. split; [| split].
  - unfold get_obs. rewrite bind_eq. cbn [gets]. rewrite Hd.
    apply (preserves_eq self). intros x. preserves_tac.
  - apply get_obs_not_none. now left.
  - intros obs Hobs.
    destruct (get_obs commands env w) as [r w'] eqn:H. cbn [fst] in Hobs. subst r.
    destruct (get_obs_gravity _ _ _ _ _ H) as (q & pg & rest & Hq & Hpg & -> & _).
    unfold orientation_used in Hq. rewrite Hd in Hq. injection Hq as <-.
    now exists pg, rest.
Qed.

Lemma np_broadcast_mismatch (op : float -> float -> float) (a b : list float) :
  length b = 13%nat -> length a <> 13%nat -> length a <> 1%nat ->
  np_broadcast op a b = Raise (ValueError "operands could not be broadcast together").
Proof.
  intros Hb Ha13 Ha1. unfold np_broadcast.
  destruct (Nat.eqb_spec (length a) (length b)) as [E | _]; [lia |].
  destruct a as [| x [| x' a]]; destruct b as [| y [| y' b]];
    cbn in *; try reflexivity; try lia; discriminate.
Qed.

(** X7: When the hardware reports a number of joint positions other than
    thirteen (or one, which numpy broadcasts), [get_obs] raises
    [ValueError] out of the subtraction of the rest pose, after both
    hardware reads and before anything is computed. *)
Theorem get_obs_rejects_a_wrong_number_of_joints (commands : list float)
    (env : IterEnv) (w : World) (q dof_pos dof_vel : list float) :
  orientation_used w = Some q ->
  (13 <= length (Self.mujoco_init_pos (self w)))%nat ->
  present_positions env = Ok dof_pos ->
  present_velocities env = Ok dof_vel ->
  length dof_pos <> 13%nat -> length dof_pos <> 1%nat ->
  fst (get_obs commands env w)
  = Raise (ValueError "operands could not be broadcast together")
  /\ exists before,
       trace (snd (get_obs commands env w))
       = before ++ [GetPresentPositions; GetPresentVelocities].
Proof.
  intros Hq Hinit Hp Hv H13 H1.
  destruct (orientation_step w) as (w0 & Ho & _ & Ht & Hc & _).
  unfold get_obs. rewrite bind_eq. cbn [gets]. rewrite bind_eq, Ho, Hq.
  rewrite bind_eq. cbn [emit modify]. rewrite bind_eq, Hp. cbn [lift].
  rewrite bind_eq. cbn [emit modify]. rewrite bind_eq, Hv. cbn [lift].
  rewrite bind_eq. cbn [gets]. rewrite bind_eq. wsimpl.
  injection Hc as _ _ _ _ _ _ _ _ _ _ _ _ Hmi _. rewrite Hmi.
  unfold np_sub. rewrite np_broadcast_mismatch; try assumption.
  - cbn [lift fst snd]. wsimpl. split; [reflexivity |].
    exists (trace w). rewrite Ht, <- app_assoc. reflexivity.
  - rewrite length_firstn. lia.
Qed.

End ObservationExtras.

(* ================================================================== *)
(** ** The cell during a session, and a zero control frequency *)

Section SessionExtras.
Context {RT : Runtime}.

Lemma get_imu_data_single_slot :
  preserves (fun w => single_slot (Self.imu_queue (self w))) get_imu_data.
Proof.
  intros w Hq. rewrite get_imu_data_eq.
  destruct w as [s f wk wt t p]; destruct s; cbn in *.
  destruct (single_slot_cases _ Hq) as [-> | [old ->]]; cbn.
  - exact Hq.
  - split; cbn; [reflexivity | lia].
Qed.

Lemma loop_body_single_slot (env : IterEnv) :
  preserves (fun w => single_slot (Self.imu_queue (self w))) (loop_body env).
Proof.
  unfold loop_body.
  apply preserves_bind.
  { apply preserves_modify. intros w. apply imu_worker_single_slot. }
  intros _. preserves_tac.
  apply get_imu_data_single_slot.
  all: preserves_tac.
Qed.

Lemma imu_worker_pass_full_cell (r : result (list float)) (w : World)
    (v : list float) :
  Self.imu_queue (self w) = Queue.mk 1 [v] ->
  Self.imu_queue (self (imu_worker_pass r w)) = Queue.mk 1 [v].
Proof.
  intros Hq.
  assert (Hpub : forall u, Self.imu_queue (self (publish u w)) = Queue.mk 1 [v]).
  { intros u. unfold publish. rewrite Hq. cbn. exact Hq. }
  unfold imu_worker_pass.
  destruct (worker w); try exact Hq; try apply Hpub.
  destruct (match r with Ok raw => from_quat_as_euler raw | Raise e => Raise e end)
    as [euler | e].
  - destruct (py_index euler 1), (py_index euler 2), (py_index euler 0);
      try exact Hq. apply Hpub.
  - destruct (is_Exception e); exact Hq.
Qed.

Lemma imu_worker_passes_full_cell (rs : list (result (list float))) (w : World)
    (v : list float) :
  Self.imu_queue (self w) = Queue.mk 1 [v] ->
  Self.imu_queue (self (imu_worker_passes rs w)) = Queue.mk 1 [v].
Proof.
  revert w. induction rs as [| r rs IH]; intros w Hq; [exact Hq |].
  change (imu_worker_passes (r :: rs) w)
    with (imu_worker_passes rs (imu_worker_pass r w)).
  apply IH, imu_worker_pass_full_cell, Hq.
Qed.

(** X4: The cell holds at most one sample for as long as the program runs:
    whatever the sampler does, through any session, however it ends.
    A sample that waited in [put] is stored once the cell has been
    emptied, and nothing read from the sensor later takes its place
    before it is read. *)
Theorem cell_never_holds_two_samples (w : World) :
  single_slot (Self.imu_queue (self w)) ->
  (forall readings, single_slot (Self.imu_queue (self (imu_worker readings w))))
  /\ (forall script, single_slot (Self.imu_queue (self (snd (run script w)))))
  /\ (forall v readings,
        worker w = WPutting v ->
        Queue.items (Self.imu_queue (self w)) = [] ->
        Self.imu_queue (self (imu_worker readings w)) = Queue.mk 1 [v]).
Proof.
  intros Hq. split; [| split].
  - intros readings. apply imu_worker_single_slot, Hq.
  - intros script. destruct (run_self script w) as [-> _].
    apply (preserves_loop (fun w0 => single_slot (Self.imu_queue (self w0)))).
    + apply loop_body_single_slot.
    + exact Hq.
  - intros v readings Hw Hempty. unfold imu_worker.
    apply imu_worker_passes_full_cell.
    unfold resume_put. rewrite Hw.
    destruct w as [s f wk wt t p]; destruct s; cbn in *.
    destruct (single_slot_cases _ Hq) as [-> | [old ->]]; [| discriminate].
    unfold publish. cbn.
    destruct (py_div _ _); [destruct (sleep_refusal _) |]; reflexivity.
Qed.

(** X8: With a control frequency of zero the pacing statement raises
    [ZeroDivisionError]: no pass runs to its end, and a session that
    has started a pass is over. *)
Theorem zero_control_frequency_ends_the_first_pass (w : World) :
  (Self.control_freq (self w) =? 0) = true ->
  (forall start env, pace start env w = (Raise ZeroDivisionError, w))
  /\ (forall env, fst (loop_body env w) <> Ok Continue)
  /\ (forall env rest, fst (run (env :: rest) w) <> Running).
Proof.
  intros Hz.
  assert (Hdiv : forall w0 : World,
             Self.control_freq (self w0) = Self.control_freq (self w) ->
             py_div 1 (Self.control_freq (self w0)) = Raise ZeroDivisionError).
  { intros w0 ->. unfold py_div. now rewrite Hz. }
  assert (Hbody : forall env w0,
             Self.control_freq (self w0) = Self.control_freq (self w) ->
             fst (loop_body env w0) <> Ok Continue).
  { intros env w0 Hcf Hc.
    destruct (loop_body env w0) as [r w'] eqn:H. cbn [fst] in Hc. subst r.
    destruct (loop_body_continue _ _ _ H)
      as (? & ? & ? & ? & ? & ? & ? & ? & ? & period
          & _ & _ & _ & _ & _ & _ & Hp & _).
    rewrite (Hdiv w0 Hcf) in Hp. discriminate. }
  split; [| split].
  - intros start env. unfold pace. cbv zeta.
    rewrite bind_eq. cbn [gets]. rewrite bind_eq, (Hdiv w eq_refl). reflexivity.
  - intros env. apply Hbody. reflexivity.
  - intros env rest. unfold run. rewrite loop_cons.
    pose proof (Hbody env (entry w) eq_refl) as Hnc.
    destruct (loop_body env (entry w)) as [[[|] | e] w1]; cbn [fst] in *.
    + now elim Hnc.
    + discriminate.
    + destruct (is_KeyboardInterrupt e); discriminate.
Qed.

End SessionExtras.

(* ================================================================== *)
(** ** The order of a pass, the counter and the commands *)

Section PassExtras.
Context {RT : Runtime}.

(** The locals of [run] after a pass that reached its end. *)
Lemma loop_body_frame (env : IterEnv) (w w' : World) :
  loop_body env w = (Ok Continue, w') ->
  Locals.i (frame w') = (Locals.i (frame w) + 1)%Z
  /\ if Self.commands (self w)
     then exists c c',
         command env = Ok c
         /\ np_mul c [Self.linearVelocityScale (self w);
                      Self.linearVelocityScale (self w);
                      Self.angularVelocityScale (self w)] = Ok c'
         /\ Locals.commands (frame w') = c'
     else Locals.commands (frame w') = Locals.commands (frame w).
Proof.
  unfold loop_body. intros H. minv H.
  match goal with
  | Hg : get_obs _ _ _ = (Ok ?a, _) |- _ => destruct a as [obs |]; minv H
  end.
  match goal with
  | Hc : (if ?c then _ else _) _ = (Ok _, _) |- _ => destruct c eqn:Hcmd; minv Hc
  end.
  all: match goal with
       | Hp : pace _ _ _ = (Ok _, _) |- _ =>
           apply pace_ok in Hp; destruct Hp as (period & Hperiod & _ & ->)
       end.
  all: match goal with
       | Hi : infer_action _ _ ?x = (Ok _, ?w2) |- _ =>
           pose proof (infer_action_history obs env x) as [Hfr _];
           rewrite Hi in Hfr; cbn [snd] in Hfr;
           pose proof (preserves_eq static (infer_action obs env) x
                         ltac:(intros ?; preserves_tac)) as Hst;
           rewrite Hi in Hst; cbn [snd] in Hst
       end.
  all: match goal with
       | Hg : get_obs ?c ?e ?x = (Ok _, ?w1) |- _ =>
           pose proof (get_obs_keeps c e x) as (Hfg & _ & Hsg);
           rewrite Hg in Hfg, Hsg; cbn [snd] in Hfg, Hsg
       end.
  all: destruct (imu_worker_footprint (sensor env) w) as (q & wk & wt & Hiw);
    rewrite Hiw in *; clear Hiw.
  all: wsimpl.
  all: injection Hst as _ Hc1 _ _ _ _ _ Hl1 Ha1 _.
  all: injection Hsg as _ Hc0 _ _ _ _ _ Hl0 Ha0 _.
  all: rewrite Hfr; wsimpl; rewrite Hfg.
  all: rewrite Hc1 in Hcmd; wsimpl; rewrite Hc0 in Hcmd; rewrite Hcmd.
  all: split; [reflexivity |].
  - match goal with
    | Hc : command env = Ok ?c, Hm : np_mul ?c _ = Ok ?c' |- _ => exists c, c'
    end.
    repeat split; try assumption.
    match goal with Hm : np_mul _ _ = Ok _ |- _ =>
      rewrite Hl1, Ha1 in Hm; wsimpl; rewrite Hl0, Ha0 in Hm; exact Hm end.
  - reflexivity.
Qed.

Lemma pass_obs_of_get_obs (env : IterEnv) (w w1 : World) (obs : list float) :
  get_obs (Locals.commands (frame w)) env (imu_worker (sensor env) w)
  = (Ok (Some obs), w1) ->
  pass_obs env w = Some obs.
Proof.
  intros H. unfold pass_obs. cbv zeta.
  destruct (imu_worker_footprint (sensor env) w) as (q & wk & wt & Hiw).
  rewrite Hiw in *. wsimpl. now rewrite H.
Qed.

(** The effects of a pass that reached its end, all of them. *)
Lemma loop_body_trace (env : IterEnv) (w w' : World) :
  loop_body env w = (Ok Continue, w') ->
  exists obs raw inference d cmd period,
    pass_obs env w = Some obs
    /\ action env = Ok raw
    /\ py_div 1 (Self.control_freq (self w)) = Ok period
    /\ trace w'
       = trace w ++ [GetPresentPositions; GetPresentVelocities] ++ inference
         ++ [SetPositionAll d] ++ cmd
         ++ [Sleep (py_max (period - (time_end env - time_start env)) 0)]
    /\ (if Self.rma (self w)
        then exists lat,
            latent env = Ok lat
            /\ inference = [AdaptationInfer (concat (Self.obs_history (self w')));
                            PolicyInfer (obs ++ lat)]
        else inference = [PolicyInfer obs])
    /\ (if Self.commands (self w)
        then cmd = [GetCommand; PrintCommands (Locals.commands (frame w'))]
        else cmd = []).
Proof.
  intros H.
  destruct (loop_body_continue _ _ _ H)
    as (obs & raw & w1 & w2 & scaled & f & ra & d & cmd & period
        & Hg & Hi & _ & _ & _ & _ & Hp & _ & _ & Hh2 & _ & Ht & Hcmd).
  destruct (get_obs_ok _ _ _ _ _ Hg)
    as (_ & _ & _ & _ & _ & _ & _ & _ & _ & _ & _ & _ & _ & _ & _ & Hst1
        & _ & _ & _ & Ht1).
  destruct (imu_worker_footprint (sensor env) w) as (q' & wk' & wt' & Hiw).
  pose proof (pass_obs_of_get_obs _ _ _ _ Hg) as Hpass.
  rewrite Hiw in Hst1, Ht1. clear Hiw. wsimpl.
  injection Hst1 as _ _ _ Hrma _.
  destruct (infer_action_ok _ _ _ _ _ Hi) as [Hact Hw2].
  wsimpl. rewrite Hrma in Hw2.
  exists obs, raw.
  exists (if Self.rma (self w)
          then [AdaptationInfer (concat (Self.obs_history (self w')));
                PolicyInfer (obs ++ match latent env with Ok l => l | Raise _ => [] end)]
          else [PolicyInfer obs]).
  exists d, cmd, period.
  repeat (split; [assumption |]).
  destruct (Self.rma (self w)).
  - destruct Hw2 as (lat & _ & Hlat & ->). rewrite Hlat.
    split; [| split].
    + rewrite Ht, Hh2. wsimpl. rewrite Ht1, <- !app_assoc. reflexivity.
    + now exists lat.
    + destruct (Self.commands (self w)); [| apply Hcmd].
      destruct Hcmd as (c & -> & ->). reflexivity.
  - subst w2. split; [| split].
    + rewrite Ht. wsimpl. rewrite Ht1, <- !app_assoc. reflexivity.
    + reflexivity.
    + destruct (Self.commands (self w)); [| apply Hcmd].
      destruct Hcmd as (c & -> & ->). reflexivity.
Qed.

(** X9: A pass that reaches its end has, in this order and with nothing in
    between: read the joint positions, read the joint velocities,
    called the adaptation module (adaptive mode only) and the policy,
    commanded the motors once, polled and printed the command (when
    commands are enabled), and slept. *)
Theorem pass_runs_in_order (env : IterEnv) (w w' : World) :
  loop_body env w = (Ok Continue, w') ->
  exists obs inference d cmd period,
    pass_obs env w = Some obs
    /\ trace w'
       = trace w ++ [GetPresentPositions; GetPresentVelocities] ++ inference
         ++ [SetPositionAll d] ++ cmd
         ++ [Sleep (py_max (period - (time_end env - time_start env)) 0)]
    /\ (if Self.rma (self w)
        then exists lat,
            latent env = Ok lat
            /\ inference = [AdaptationInfer (concat (Self.obs_history (self w')));
                            PolicyInfer (obs ++ lat)]
        else inference = [PolicyInfer obs])
    /\ (if Self.commands (self w)
        then cmd = [GetCommand; PrintCommands (Locals.commands (frame w'))]
        else cmd = []).
Proof.
  intros H.
  destruct (loop_body_trace _ _ _ H)
    as (obs & raw & inference & d & cmd & period & H1 & _ & _ & H2 & H3 & H4).
  exists obs, inference, d, cmd, period. repeat split; assumption.
Qed.

Lemma filter_set_position_pass (t inference cmd : list event)
    (d : list (string * float)) (s : float) :
  Forall (fun e => is_set_position e = false) inference ->
  Forall (fun e => is_set_position e = false) cmd ->
  length (filter is_set_position
            (t ++ [GetPresentPositions; GetPresentVelocities] ++ inference
               ++ [SetPositionAll d] ++ cmd ++ [Sleep s]))
  = S (length (filter is_set_position t)).
Proof.
  intros Hi Hc.
  assert (Hnone : forall l, Forall (fun e => is_set_position e = false) l ->
                            filter is_set_position l = []).
  { induction 1 as [| e l He _ IH]; cbn; [reflexivity |]. now rewrite He. }
  rewrite !filter_app, (Hnone _ Hi), (Hnone _ Hc). cbn.
  rewrite length_app. cbn. lia.
Qed.

(** X10: After [n] passes that all reached their end, the counter [i] has
    grown by [n], [n] observations have been recorded, and the motors
    have been commanded [n] times. *)
Theorem completed_passes_are_counted (script : list IterEnv) (w w' : World) :
  loop script w = (Ok StillLooping, w') ->
  Locals.i (frame w') = (Locals.i (frame w) + Z.of_nat (length script))%Z
  /\ length (Locals.robot_computed_obs (frame w'))
     = (length (Locals.robot_computed_obs (frame w)) + length script)%nat
  /\ length (filter is_set_position (trace w'))
     = (length (filter is_set_position (trace w)) + length script)%nat.
Proof.
  revert w. induction script as [| env rest IH]; intros w.
  - cbn. intros [= <-]. repeat split; lia.
  - rewrite loop_cons.
    destruct (loop_body env w) as [[[|] | e] w1] eqn:Hb; try discriminate.
    intros Hrest. destruct (IH w1 Hrest) as (Hi & Hr & Hs).
    destruct (loop_body_frame _ _ _ Hb) as [Hi1 _].
    destruct (loop_body_trace _ _ _ Hb)
      as (obs & raw & inference & d & cmd & period & _ & _ & _ & Ht & Hinf & Hcmd).
    destruct (loop_body_continue _ _ _ Hb)
      as (? & ? & ? & ? & ? & ? & ? & ? & ? & ?
          & _ & _ & _ & _ & _ & _ & _ & _ & _ & _ & Hrco & _).
    rewrite Hi, Hi1, Hr, Hrco, Hs, Ht, length_app. cbn [length].
    rewrite filter_set_position_pass.
    + repeat split; lia.
    + destruct (Self.rma (self w)).
      * destruct Hinf as (lat & _ & ->). repeat constructor.
      * subst inference. repeat constructor.
    + destruct (Self.commands (self w)); subst cmd; repeat constructor.
Qed.

Lemma init_scales (control_freq : float) (debug_no_imu : bool)
    (action_scale cutoff_frequency : float) (commands : bool)
    (pitch_bias : float) (rma : bool) (s : Self.t) :
  Self.init control_freq debug_no_imu action_scale cutoff_frequency commands
            pitch_bias rma = Ok s ->
  Self.linearVelocityScale s = 2 /\ Self.angularVelocityScale s = 0.25
  /\ Self.commands s = commands.
Proof.
  unfold Self.init. destruct (mujoco_to_isaac _); [| discriminate].
  intros [= <-]. repeat split.
Qed.

(** X11: With commands enabled, the three values polled at the end of a pass
    are multiplied by the two linear and the angular velocity scale
    (2, 2 and 0.25 in an object the constructor built) and are the
    command part of the observation of the next pass. *)
Theorem polled_command_is_scaled_for_the_next_pass (env : IterEnv)
    (w w' : World) (vx vy wz : float) :
  Self.commands (self w) = true ->
  command env = Ok [vx; vy; wz] ->
  loop_body env w = (Ok Continue, w') ->
  Locals.commands (frame w')
  = [vx * Self.linearVelocityScale (self w);
     vy * Self.linearVelocityScale (self w);
     wz * Self.angularVelocityScale (self w)]
  /\ (forall env' obs',
        pass_obs env' w' = Some obs' ->
        exists pg rest,
          obs' = pg ++ [vx * Self.linearVelocityScale (self w);
                        vy * Self.linearVelocityScale (self w);
                        wz * Self.angularVelocityScale (self w)] ++ rest)
  /\ (forall cf dbg sc cut pb rma s,
        Self.init cf dbg sc cut true pb rma = Ok s ->
        Self.linearVelocityScale s = 2 /\ Self.angularVelocityScale s = 0.25).
Proof.
  intros Hc Hcmd H.
  destruct (loop_body_frame _ _ _ H) as [_ Hfr]. rewrite Hc in Hfr.
  destruct Hfr as (c & c' & Hc0 & Hmul & Hc').
  rewrite Hcmd in Hc0. injection Hc0 as <-.
  cbn in Hmul. injection Hmul as <-.
  split; [exact Hc' |]. split.
  - intros env' obs'. unfold pass_obs.
    destruct (get_obs _ _ _) as [[[o |] | e] w3] eqn:Hg'; try discriminate.
    intros [= ->].
    destruct (get_obs_ok _ _ _ _ _ Hg')
      as (dof_pos & dof_vel & d' & pos & vel & q & pg
          & _ & _ & _ & _ & _ & _ & -> & _).
    destruct (imu_worker_footprint (sensor env') w') as (q' & wk & wt & ->).
    wsimpl. rewrite Hc'. now exists pg, (pos ++ vel ++ Self.prev_action (self w')).
  - intros cf dbg sc cut pb rma s Hinit.
    destruct (init_scales _ _ _ _ _ _ _ _ Hinit) as (H1 & H2 & _). now split.
Qed.

End PassExtras.

(* ================================================================== *)
(** ** What a pass never does *)

Section InvariantRules.
Context {RT : Runtime}.

Lemma preserves_lift_bind {A B : Type} (I : World -> Prop) (r : result A)
    (k : A -> M B) :
  (forall a, r = Ok a -> preserves I (k a)) -> preserves I (bind (lift r) k).
Proof.
  intros Hk w H. rewrite bind_eq. unfold lift.
  destruct r as [a | e]; [apply (Hk a eq_refl), H | exact H].
Qed.

Lemma preserves_gets_bind {A B : Type} (I : World -> Prop) (f : World -> A)
    (k : A -> M B) :
  (forall w0, I w0 -> preserves I (k (f w0))) -> preserves I (bind (gets f) k).
Proof. intros Hk w H. rewrite bind_eq. cbn [gets]. apply (Hk w H w H). Qed.

Lemma none_since_refl (p : event -> bool) (w : World) :
  none_since p (trace w) w.
Proof. exists []. rewrite app_nil_r. split; [reflexivity | constructor]. Qed.

Lemma none_since_snoc (p : event -> bool) (t0 : list event) (e : event)
    (w : World) :
  p e = false -> none_since p t0 w ->
  none_since p t0 (with_trace (trace w ++ [e]) w).
Proof.
  intros He (evs & Ht & Hq). exists (evs ++ [e]). cbn [trace with_trace].
  rewrite Ht, <- app_assoc. split; [reflexivity |].
  apply Forall_app. split; [exact Hq | repeat constructor; exact He].
Qed.

Lemma preserves_emit_none_since (p : event -> bool) (t0 : list event) (e : event) :
  p e = false -> preserves (none_since p t0) (emit e).
Proof. intros He w H. apply none_since_snoc; assumption. Qed.

Lemma preserves_time_sleep_none_since (p : event -> bool) (t0 : list event)
    (d : float) (r : result unit) :
  p (Sleep d) = false -> preserves (none_since p t0) (time_sleep d r).
Proof.
  intros He. unfold time_sleep. destruct (sleep_refusal d).
  - apply preserves_lift.
  - apply preserves_bind; [apply preserves_emit_none_since, He |].
    intros _. apply preserves_lift.
Qed.

End InvariantRules.

Ltac quiet_step :=
  lazymatch goal with
  | |- preserves _ (emit _) => apply preserves_emit_none_since; reflexivity
  | |- preserves _ (time_sleep _ _) =>
      apply preserves_time_sleep_none_since; reflexivity
  | _ => preserves_step
  end.

Ltac quiet_tac := unfold get_obs, infer_action, pace; repeat quiet_step.

Section NeverExtras.
Context {RT : Runtime}.

Lemma get_obs_none_since (t0 : list event) (commands : list float) (env : IterEnv) :
  preserves (none_since is_set_position t0) (get_obs commands env).
Proof. quiet_tac. Qed.

Lemma infer_action_none_since (t0 : list event) (obs : list float) (env : IterEnv) :
  preserves (none_since is_set_position t0) (infer_action obs env).
Proof. quiet_tac. Qed.

Lemma get_obs_needs_the_hardware (commands : list float) (env : IterEnv)
    (w w' : World) (obs : list float) :
  get_obs commands env w = (Ok (Some obs), w') ->
  (exists p, present_positions env = Ok p)
  /\ (exists v, present_velocities env = Ok v).
Proof.
  intros H.
  destruct (get_obs_ok _ _ _ _ _ H) as (p & v & _ & _ & _ & _ & _ & Hp & Hv & _).
  eauto.
Qed.

(** X12: A pass in which a hardware read or the policy raises does not run
    to its end, commands the motors not at all, and leaves the filter
    and the previous action as they were. *)
Theorem failed_input_commands_no_motor (env : IterEnv) (w : World) :
  input_fails env ->
  fst (loop_body env w) <> Ok Continue
  /\ none_since is_set_position (trace w) (snd (loop_body env w))
  /\ Self.action_filter (self (snd (loop_body env w))) = Self.action_filter (self w)
  /\ Self.prev_action (self (snd (loop_body env w))) = Self.prev_action (self w).
Proof.
  intros Hfail.
  set (J := fun w0 : World =>
              none_since is_set_position (trace w) w0
              /\ Self.action_filter (self w0) = Self.action_filter (self w)
              /\ Self.prev_action (self w0) = Self.prev_action (self w)).
  assert (Hget : forall c, preserves J (get_obs c env)).
  { intros c w0 (H1 & H2 & H3). repeat split.
    - apply get_obs_none_since, H1.
    - rewrite <- H2. apply (preserves_eq (fun x => Self.action_filter (self x))).
      intros x. preserves_tac.
    - rewrite <- H3. apply (preserves_eq (fun x => Self.prev_action (self x))).
      intros x. preserves_tac. }
  assert (Hinf : forall obs, preserves J (infer_action obs env)).
  { intros obs w0 (H1 & H2 & H3). repeat split.
    - apply infer_action_none_since, H1.
    - rewrite <- H2. apply (preserves_eq (fun x => Self.action_filter (self x))).
      intros x. preserves_tac.
    - rewrite <- H3. apply (preserves_eq (fun x => Self.prev_action (self x))).
      intros x. preserves_tac. }
  assert (HJ : J (imu_worker (sensor env) w)).
  { destruct (imu_worker_footprint (sensor env) w) as (q & wk & wt & ->).
    repeat split. apply (none_since_refl is_set_position w). }
  unfold loop_body.
  rewrite bind_eq. cbn [modify]. rewrite bind_eq. cbn [gets]. rewrite bind_eq.
  specialize (Hget (Locals.commands (frame (imu_worker (sensor env) w)))
                   (imu_worker (sensor env) w) HJ).
  destruct (get_obs _ _ _) as [[[obs |] | e] w1] eqn:Hg; cbn [fst snd] in *.
  - destruct (get_obs_needs_the_hardware _ _ _ _ _ Hg) as [[p Hp] [v Hv]].
    destruct Hfail as [[e He] | [[e He] | [e He]]]; try congruence.
    rewrite bind_eq. cbn [modify]. rewrite bind_eq.
    specialize (Hinf obs (with_frame (append_obs obs) w1) Hget).
    destruct (infer_action obs env _) as [[a | e'] w2] eqn:Hi; cbn [fst snd] in *.
    + destruct (infer_action_ok _ _ _ _ _ Hi) as [Ha _]. congruence.
    + split; [discriminate | exact Hinf].
  - split; [discriminate | exact Hget].
  - split; [discriminate | exact Hget].
Qed.

End NeverExtras.

(* ================================================================== *)
(** ** The command vector *)

Ltac dep_step :=
  lazymatch goal with
  | |- preserves _ (bind (lift _) _) => apply preserves_lift_bind; intros ? ?
  | |- preserves _ (bind (gets _) _) => apply preserves_gets_bind; intros ? ?
  | |- preserves _ (emit _) =>
      first [ apply preserves_emit_none_since; reflexivity
            | apply preserves_modify; intros ? HI; exact HI ]
  | |- preserves _ (time_sleep _ _) =>
      first [ apply preserves_time_sleep_none_since; reflexivity
            | apply preserves_time_sleep; intros ? ? HI; exact HI ]
  | |- preserves _ (if ?c then _ else _) => destruct c eqn:?
  | _ => preserves_step
  end.

Section CommandExtras.
Context {RT : Runtime}.

Lemma loop_body_three_commands (env : IterEnv) :
  preserves (fun w => length (Locals.commands (frame w)) = 3%nat) (loop_body env).
Proof.
  unfold loop_body, get_obs, infer_action, pace. repeat dep_step.
  apply preserves_modify. intros w _. cbn.
  match goal with
  | Hm : np_mul _ _ = Ok _ |- _ =>
      rewrite (np_broadcast_length _ _ _ _ Hm); cbn; [reflexivity | lia]
  end.
Qed.

(** The product of a flat answer of the command source and the three
    scales: three entries are scaled one by one, a single entry is
    spread over the three scales, any other length is refused. *)
Lemma np_mul_three (c c' : list float) (k1 k2 k3 : float) :
  np_mul c [k1; k2; k3] = Ok c' ->
  (length c = 3%nat \/ length c = 1%nat)
  /\ c' = map (fun '(x, k) => x * k)
              (combine (if Nat.eqb (length c) 1 then repeat (hd 0 c) 3 else c)
                       [k1; k2; k3]).
Proof.
  destruct c as [| x [| y [| z [| t c]]]]; cbn; intros [= <-].
  - split; [now right | reflexivity].
  - split; [now left | reflexivity].
Qed.

(** X13: When the command source answers with a flat sequence of numbers,
    the command vector in use has three entries throughout a session:
    it starts as three zeros, and a pass with commands enabled that
    runs to its end has got an answer of three entries, scaled one by
    one, or of one entry, spread over the three scales; an answer of
    any other length ends the pass.  The observation of every pass
    carries the command vector in use right after the gravity of the
    orientation in use. *)
Theorem command_vector_keeps_three_entries (script : list IterEnv) (w : World) :
  length (Locals.commands (frame (snd (run script w)))) = 3%nat
  /\ length (Locals.commands (frame (snd (loop script (entry w))))) = 3%nat
  /\ (forall env obs,
        pass_obs env (snd (loop script (entry w))) = Some obs ->
        exists q pg rest,
          orientation_used (imu_worker (sensor env) (snd (loop script (entry w))))
          = Some q
          /\ quat_rotate_inverse q [0; 0; -1] = Ok pg
          /\ obs = pg ++ Locals.commands (frame (snd (loop script (entry w))))
                      ++ rest)
  /\ (forall env w',
        Self.commands (self w) = true ->
        loop_body env (snd (loop script (entry w))) = (Ok Continue, w') ->
        exists c,
          command env = Ok c
          /\ (length c = 3%nat \/ length c = 1%nat)
          /\ Locals.commands (frame w')
             = map (fun '(x, k) => x * k)
                   (combine (if Nat.eqb (length c) 1 then repeat (hd 0 c) 3 else c)
                            [Self.linearVelocityScale (self w);
                             Self.linearVelocityScale (self w);
                             Self.angularVelocityScale (self w)])).
Proof.
  assert (H3 : length (Locals.commands (frame (snd (loop script (entry w))))) = 3%nat).
  { apply (preserves_loop (fun w0 => length (Locals.commands (frame w0)) = 3%nat)).
    - apply loop_body_three_commands.
    - reflexivity. }
  assert (Hst : static (snd (loop script (entry w))) = static w).
  { rewrite loop_static. reflexivity. }
  split; [| split; [exact H3 | split]].
  - destruct (run_self script w) as [_ ->]. exact H3.
  - intros env obs. unfold pass_obs. cbv zeta.
    destruct (get_obs _ _ _) as [[[o |] | e] w1] eqn:Hg; try discriminate.
    intros [= ->].
    destruct (get_obs_gravity _ _ _ _ _ Hg) as (q & pg & rest & Hq & Hpg & Hobs & _).
    exists q, pg, rest. repeat split; try assumption.
    rewrite Hobs.
    destruct (imu_worker_footprint (sensor env) (snd (loop script (entry w))))
      as (q' & wk & wt & ->).
    reflexivity.
  - intros env w' Hc H.
    destruct (loop_body_frame _ _ _ H) as [_ Hfr].
    injection Hst as _ Hc' _ _ _ _ _ Hl Ha _.
    rewrite Hc', Hc, Hl, Ha in Hfr.
    destruct Hfr as (c & c' & Hc0 & Hmul & <-).
    destruct (np_mul_three _ _ _ _ _ Hmul) as [Hlen ->].
    exists c. repeat split; assumption.
Qed.

Lemma calm_snoc (t0 : list event) (e : event) (w : World) :
  is_get_command e = false -> calm t0 w ->
  calm t0 (with_trace (trace w ++ [e]) w).
Proof.
  intros He (H1 & H2 & H3). repeat split; try assumption.
  apply none_since_snoc; assumption.
Qed.

Lemma preserves_emit_calm (t0 : list event) (e : event) :
  is_get_command e = false -> preserves (calm t0) (emit e).
Proof. intros He w H. apply calm_snoc; assumption. Qed.

Lemma preserves_time_sleep_calm (t0 : list event) (d : float) (r : result unit) :
  preserves (calm t0) (time_sleep d r).
Proof.
  unfold time_sleep. destruct (sleep_refusal d).
  - apply preserves_lift.
  - apply preserves_bind; [apply preserves_emit_calm; reflexivity |].
    intros _. apply preserves_lift.
Qed.

Lemma loop_body_calm (t0 : list event) (env : IterEnv) :
  preserves (calm t0) (loop_body env).
Proof.
  unfold loop_body, get_obs, infer_action, pace. repeat dep_step.
  all: try (apply preserves_emit_calm; reflexivity).
  all: try apply preserves_time_sleep_calm.
  all: exfalso;
    match goal with
    | Hc : calm _ ?x, Ht : Self.commands (self ?x) = true |- _ =>
        destruct Hc as (_ & Hf & _); congruence
    end.
Qed.

Lemma session_obs_calm (t0 : list event) (script : list IterEnv) (w : World) :
  calm t0 w ->
  Forall (fun obs => exists pg rest, obs = pg ++ [0; 0; 0] ++ rest)
         (session_obs script w).
Proof.
  revert w. induction script as [| env rest IH]; intros w Hw; [constructor |].
  cbn [session_obs]. unfold pass_obs.
  destruct (get_obs _ _ _) as [[[obs |] | e] w1] eqn:Hg; try constructor.
  - destruct (get_obs_ok _ _ _ _ _ Hg)
      as (dof_pos & dof_vel & d' & pos & vel & q & pg
          & _ & _ & _ & _ & _ & _ & -> & _).
    destruct (imu_worker_footprint (sensor env) w) as (q' & wk & wt & ->).
    wsimpl. destruct Hw as (_ & _ & ->). eexists pg, _. reflexivity.
  - pose proof (loop_body_calm t0 env w Hw) as Hnext.
    destruct (loop_body env w) as [[[|] | e] w2]; try constructor.
    apply IH, Hnext.
Qed.

(** X14: With commands disabled the command source is never polled, the
    command in use stays zero through a session however it ends, and
    the command part of every observation is three zeros. *)
Theorem disabled_commands_stay_zero (script : list IterEnv) (w : World) :
  Self.commands (self w) = false ->
  none_since is_get_command (trace (entry w)) (snd (loop script (entry w)))
  /\ Locals.commands (frame (snd (run script w))) = [0; 0; 0]
  /\ Forall (fun obs => exists pg rest, obs = pg ++ [0; 0; 0] ++ rest)
            (session_obs script (entry w)).
Proof.
  intros Hc.
  assert (H0 : calm (trace (entry w)) (entry w)).
  { repeat split; [apply none_since_refl | exact Hc]. }
  pose proof (preserves_loop (calm (trace (entry w))) script
                (loop_body_calm (trace (entry w))) (entry w) H0)
    as (H1 & _ & H3).
  split; [exact H1 |]. split.
  - destruct (run_self script w) as [_ ->]. exact H3.
  - apply (session_obs_calm (trace (entry w))), H0.
Qed.

End CommandExtras.

(* ================================================================== *)
(** ** A misshapen observation in adaptive mode *)

Section AdaptiveExtras.
Context {RT : Runtime}.

Lemma np_flatten_ragged (r : list float) (rows : list (list float))
    (x : list float) :
  length x <> length r ->
  np_flatten (r :: rows ++ [x]) = Raise (ValueError "inhomogeneous shape").
Proof.
  intros Hx. unfold np_flatten.
  replace (forallb (fun r' => Nat.eqb (length r') (length r)) (r :: rows ++ [x]))
    with false; [reflexivity |].
  symmetry. cbn [forallb]. rewrite forallb_app. cbn [forallb].
  destruct (Nat.eqb_spec (length x) (length r)) as [E | _]; [contradiction |].
  now rewrite !andb_false_r.
Qed.

(** X15: In adaptive mode, while the history holds rows of 51 entries, an
    observation of another length makes the pass raise [ValueError]
    when the history is flattened: the observation is already in the
    history, and neither the adaptation module nor the policy has been
    called. *)
Theorem adaptive_mode_rejects_a_misshapen_observation (obs : list float)
    (env : IterEnv) (w : World) :
  Self.rma (self w) = true ->
  Self.obs_history_size (self w) = 15%nat ->
  length (Self.obs_history (self w)) = 15%nat ->
  Forall (fun r => length r = 51%nat) (Self.obs_history (self w)) ->
  length obs <> 51%nat ->
  infer_action obs env w
  = (Raise (ValueError "inhomogeneous shape"),
     with_self (Self.set_obs_history
                  (last_n 15 (Self.obs_history (self w) ++ [obs]))) w)
  /\ last_n 15 (Self.obs_history (self w) ++ [obs])
     = tl (Self.obs_history (self w)) ++ [obs].
Proof.
  intros Hrma Hsize Hlen Hrows Hobs.
  assert (Hwin : last_n 15 (Self.obs_history (self w) ++ [obs])
                 = tl (Self.obs_history (self w)) ++ [obs]).
  { unfold last_n. rewrite length_app, Hlen. cbn [length Nat.add Nat.sub skipn].
    destruct (Self.obs_history (self w)); [discriminate Hlen | reflexivity]. }
  split; [| exact Hwin].
  unfold infer_action. rewrite bind_eq. cbn [gets]. rewrite Hrma, Hsize.
  cbv zeta. rewrite bind_eq. cbn [modify]. rewrite bind_eq. rewrite Hwin.
  destruct (Self.obs_history (self w)) as [| r0 [| r1 rows]];
    try discriminate Hlen.
  cbn [tl app]. rewrite np_flatten_ragged; [reflexivity |].
  inversion Hrows as [| ? ? _ Hrest]. inversion Hrest as [| ? ? Hr1 _].
  now rewrite Hr1.
Qed.

End AdaptiveExtras.

(* ================================================================== *)
(** ** The loop of [imu_test.py] *)

Section ImuTestExtras.
Context {RT : Runtime}.

(** X16: As long as what the sensor raises is of class [Exception], the
    script stays in its loop: it prints once per reading, the angles or
    the error, and sleeps a thirtieth of a second after each reading
    that converted and not at all after a failed one. *)
Theorem imu_test_survives_failures (readings : list (result (list float)))
    (s : ImuTest.t) :
  ImuTest.state s = ImuTest.Looping ->
  Forall (fun r => forall e, ImuTest.attempt r = Raise e -> is_Exception e = true)
         readings ->
  ImuTest.state (ImuTest.run readings s) = ImuTest.Looping
  /\ ImuTest.out (ImuTest.run readings s)
     = ImuTest.out s ++ flat_map imu_test_output readings.
Proof.
  intros Hs Hr. revert s Hs.
  induction Hr as [| r readings Hr _ IH]; intros s Hs.
  - cbn. now rewrite app_nil_r.
  - change (ImuTest.run (r :: readings) s)
      with (ImuTest.run readings (ImuTest.pass r s)).
    assert (Hpass : ImuTest.pass r s
                    = ImuTest.mk ImuTest.Looping (ImuTest.out s ++ imu_test_output r)).
    { unfold ImuTest.pass, imu_test_output. rewrite Hs.
      destruct (ImuTest.attempt r) as [euler | e].
      - cbn. now rewrite <- app_assoc.
      - now rewrite (Hr e eq_refl). }
    rewrite Hpass.
    destruct (IH (ImuTest.mk ImuTest.Looping (ImuTest.out s ++ imu_test_output r))
                 eq_refl) as [H1 H2].
    split; [exact H1 |]. rewrite H2. cbn. now rewrite <- app_assoc.
Qed.

End ImuTestExtras.

(* ================================================================== *)
(** ** The further properties on concrete sessions *)

Lemma first_good_reading_is_published_witness :
  worker Stub.w0 = WReady
  /\ from_quat_as_euler (Runtime := Stub.runtime) Stub.older = Ok [0.125; 0.25; 0.5]
  /\ Self.imu_queue
       (self (imu_worker (map Raise [Stub.timeout] ++ [Ok Stub.older]) Stub.w0))
     = Queue.mk 1 [[0.25; 0.5; 0.125; 1]].
Proof.
  split; [reflexivity |]. split; [reflexivity |].
  apply (first_good_reading_is_published [Stub.timeout] Stub.older
           0.125 0.25 0.5 Stub.w0);
    [reflexivity | reflexivity | repeat constructor | reflexivity].
Defined.

Lemma get_imu_data_holds_the_last_sample_witness :
  single_slot (Self.imu_queue (self (publish Stub.older Stub.w0)))
  /\ exists w1,
       get_imu_data (publish Stub.older Stub.w0) = (Ok (Some Stub.older), w1)
       /\ get_imu_data w1 = (Ok (Some Stub.older), w1).
Proof.
  assert (H : single_slot (Self.imu_queue (self (publish Stub.older Stub.w0)))).
  { split; [reflexivity | cbn; lia]. }
  split; [exact H |].
  destruct (get_imu_data_holds_the_last_sample (publish Stub.older Stub.w0) H)
    as (d & w1 & H1 & Hd & _ & _ & H2).
  cbn in Hd. subst d. exists w1. split; assumption.
Defined.

(** A session in which the sampler reads twice before the first pass
    and so waits with its second sample. *)
Lemma cell_never_holds_two_samples_witness :
  single_slot (Self.imu_queue (self Stub.w0))
  /\ worker (imu_worker [Ok Stub.older; Ok Stub.newer] Stub.w0)
     = WPutting [2; 4; 1; 1]
  /\ single_slot
       (Self.imu_queue
          (self (snd (run [Stub.eager_pass; Stub.pass] Stub.w0)))).
Proof.
  assert (H : single_slot (Self.imu_queue (self Stub.w0))).
  { split; [reflexivity | cbn; lia]. }
  split; [exact H |]. split; [vm_compute; reflexivity |].
  apply (cell_never_holds_two_samples Stub.w0 H).
Defined.

(** The same session on the second double, whose gravity shows the
    sample in use: the first pass works with the first sample and the
    second pass with the one that waited. *)
Example waiting_sample_is_read_next :
  map (firstn 3) (session_obs (RT := Stub.bent_runtime)
                    [Stub.eager_pass; Stub.pass]
                    (entry (boot (self Stub.bent))))
  = [[0; 0; -0.125]; [0; 0; -1]].
Proof. vm_compute. reflexivity. Qed.

Lemma get_obs_uses_the_latest_available_sample_witness :
  Self.debug_no_imu (self (publish Stub.older Stub.w0)) = false
  /\ fst (get_obs [0; 0; 0] Stub.pass (publish Stub.older Stub.w0))
     = Ok (Some Stub.first_obs)
  /\ Self.last_imu_data
       (self (snd (get_obs [0; 0; 0] Stub.pass (publish Stub.older Stub.w0))))
     = Some Stub.older.
Proof.
  split; [reflexivity |]. split; [vm_compute; reflexivity |].
  assert (H : get_obs [0; 0; 0] Stub.pass (publish Stub.older Stub.w0)
              = (Ok (Some Stub.first_obs),
                 snd (get_obs [0; 0; 0] Stub.pass (publish Stub.older Stub.w0))))
    by (vm_compute; reflexivity).
  destruct (get_obs_uses_the_latest_available_sample
              [0; 0; 0] Stub.pass (publish Stub.older Stub.w0) _ Stub.first_obs
              eq_refl H)
    as (q & pg & rest & Hq & _ & _ & Hlast & _).
  cbn in Hq. subst q. exact Hlast.
Defined.

Lemma get_obs_debug_mode_witness :
  Self.debug_no_imu (self Stub.w0_debug) = true
  /\ self (snd (get_obs [0; 0; 0] Stub.pass Stub.w0_debug)) = self Stub.w0_debug.
Proof.
  split; [reflexivity |].
  apply (get_obs_debug_mode [0; 0; 0] Stub.pass Stub.w0_debug eq_refl).
Defined.

Lemma get_obs_rejects_a_wrong_number_of_joints_witness :
  orientation_used Stub.w0 = Some [0; 0; 0; 0]
  /\ present_positions Stub.short_pass = Ok (repeat 0 12)
  /\ fst (get_obs [0; 0; 0] Stub.short_pass Stub.w0)
     = Raise (ValueError "operands could not be broadcast together").
Proof.
  split; [reflexivity |]. split; [reflexivity |].
  apply (get_obs_rejects_a_wrong_number_of_joints
           [0; 0; 0] Stub.short_pass Stub.w0 [0; 0; 0; 0]
           (repeat 0 12) (repeat 0 13));
    try reflexivity; cbn; lia.
Defined.

Lemma zero_control_frequency_ends_the_first_pass_witness :
  (Self.control_freq (self Stub.w0_zero) =? 0) = true
  /\ fst (run [Stub.pass; Stub.pass] Stub.w0_zero) <> Running.
Proof.
  assert (H : (Self.control_freq (self Stub.w0_zero) =? 0) = true)
    by (vm_compute; reflexivity).
  split; [exact H |].
  apply (zero_control_frequency_ends_the_first_pass Stub.w0_zero H).
Defined.

(** What happens there: the motors are commanded, then the division
    raises and nothing is written. *)
Example zero_control_frequency_session :
  fst (run [Stub.pass; Stub.pass] Stub.w0_zero) = Raised ZeroDivisionError
  /\ length (filter is_set_position
               (trace (snd (run [Stub.pass; Stub.pass] Stub.w0_zero)))) = 1%nat
  /\ pkl (snd (run [Stub.pass; Stub.pass] Stub.w0_zero)) = None.
Proof. vm_compute. repeat split. Qed.

Lemma pass_runs_in_order_witness :
  loop_body Stub.pass (entry Stub.w0) = (Ok Continue, Stub.w1)
  /\ exists d s,
       trace Stub.w1
       = trace (entry Stub.w0)
         ++ [GetPresentPositions; GetPresentVelocities; PolicyInfer Stub.first_obs;
             SetPositionAll d; Sleep s].
Proof.
  assert (H : loop_body Stub.pass (entry Stub.w0) = (Ok Continue, Stub.w1))
    by (vm_compute; reflexivity).
  split; [exact H |].
  destruct (pass_runs_in_order Stub.pass (entry Stub.w0) Stub.w1 H)
    as (obs & inference & d & cmd & period & Hobs & Ht & Hinf & Hcmd).
  cbn in Hinf, Hcmd. subst inference cmd.
  vm_compute in Hobs. injection Hobs as <-.
  exists d. eexists. exact Ht.
Defined.

Lemma completed_passes_are_counted_witness :
  loop [Stub.pass; Stub.pass; Stub.pass] (entry Stub.w0)
  = (Ok StillLooping, snd (loop [Stub.pass; Stub.pass; Stub.pass] (entry Stub.w0)))
  /\ Locals.i (frame (snd (loop [Stub.pass; Stub.pass; Stub.pass]
                                (entry Stub.w0)))) = 3%Z.
Proof.
  assert (H : loop [Stub.pass; Stub.pass; Stub.pass] (entry Stub.w0)
              = (Ok StillLooping,
                 snd (loop [Stub.pass; Stub.pass; Stub.pass] (entry Stub.w0))))
    by (vm_compute; reflexivity).
  split; [exact H |].
  apply (completed_passes_are_counted _ _ _ H).
Defined.

Lemma polled_command_is_scaled_for_the_next_pass_witness :
  Self.commands (self (entry Stub.w0_cmd)) = true
  /\ loop_body Stub.cmd_pass (entry Stub.w0_cmd)
     = (Ok Continue, snd (loop_body Stub.cmd_pass (entry Stub.w0_cmd)))
  /\ Locals.commands (frame (snd (loop_body Stub.cmd_pass (entry Stub.w0_cmd))))
     = [2; 4; 1].
Proof.
  assert (H : loop_body Stub.cmd_pass (entry Stub.w0_cmd)
              = (Ok Continue, snd (loop_body Stub.cmd_pass (entry Stub.w0_cmd))))
    by (vm_compute; reflexivity).
  split; [reflexivity |]. split; [exact H |].
  apply (polled_command_is_scaled_for_the_next_pass
           Stub.cmd_pass (entry Stub.w0_cmd) _ 1 2 4 eq_refl eq_refl H).
Defined.

Lemma failed_input_commands_no_motor_witness :
  input_fails (Stub.quiet (Raise Stub.inference_failed))
  /\ Self.prev_action
       (self (snd (loop_body (Stub.quiet (Raise Stub.inference_failed)) Stub.w1)))
     = Stub.ones.
Proof.
  assert (H : input_fails (Stub.quiet (Raise Stub.inference_failed))).
  { right. right. now exists Stub.inference_failed. }
  split; [exact H |].
  destruct (failed_input_commands_no_motor
              (Stub.quiet (Raise Stub.inference_failed)) Stub.w1 H)
    as (_ & _ & _ & Hprev).
  rewrite Hprev. vm_compute. reflexivity.
Defined.

(** Two passes with commands enabled and an answer of [1, 2, 4]. *)
Lemma command_vector_keeps_three_entries_witness :
  Self.commands (self Stub.w0_cmd) = true
  /\ pass_obs Stub.cmd_pass (snd (loop [Stub.cmd_pass] (entry Stub.w0_cmd)))
     = Some ([0; 0; -1] ++ [2; 4; 1] ++ repeat 0 30 ++ Stub.ones)
  /\ Locals.commands (frame (snd (loop [Stub.cmd_pass; Stub.cmd_pass]
                                       (entry Stub.w0_cmd))))
     = [1 * 2; 2 * 2; 4 * 0.25].
Proof.
  split; [reflexivity |]. split; [vm_compute; reflexivity |].
  assert (H : loop_body Stub.cmd_pass
                (snd (loop [Stub.cmd_pass] (entry Stub.w0_cmd)))
              = (Ok Continue,
                 snd (loop [Stub.cmd_pass; Stub.cmd_pass] (entry Stub.w0_cmd))))
    by (vm_compute; reflexivity).
  destruct (command_vector_keeps_three_entries [Stub.cmd_pass] Stub.w0_cmd)
    as (_ & _ & _ & Hpoll).
  destruct (Hpoll Stub.cmd_pass _ eq_refl H) as (c & Hc & _ & ->).
  injection Hc as <-. reflexivity.
Defined.

Lemma disabled_commands_stay_zero_witness :
  Self.commands (self Stub.w0) = false
  /\ Locals.commands (frame (snd (run [Stub.cmd_pass; Stub.cmd_pass] Stub.w0)))
     = [0; 0; 0].
Proof.
  split; [reflexivity |].
  apply (disabled_commands_stay_zero [Stub.cmd_pass; Stub.cmd_pass] Stub.w0
           eq_refl).
Defined.

Lemma adaptive_mode_rejects_a_misshapen_observation_witness :
  Self.rma (self Stub.w0_rma) = true
  /\ length (repeat 0 50 : list float) <> 51%nat
  /\ fst (infer_action (repeat 0 50) Stub.pass Stub.w0_rma)
     = Raise (ValueError "inhomogeneous shape").
Proof.
  assert (Hrows : Forall (fun r : list float => length r = 51%nat)
                         (Self.obs_history (self Stub.w0_rma)))
    by (vm_compute; repeat constructor).
  assert (Hlen : length (repeat 0 50 : list float) <> 51%nat) by (cbn; lia).
  split; [reflexivity |]. split; [exact Hlen |].
  destruct (adaptive_mode_rejects_a_misshapen_observation
              (repeat 0 50) Stub.pass Stub.w0_rma eq_refl eq_refl eq_refl
              Hrows Hlen) as [-> _].
  reflexivity.
Defined.

Lemma imu_test_survives_failures_witness :
  ImuTest.out
    (ImuTest.run (RT := Stub.runtime)
       [Raise Stub.timeout; Ok Stub.older; Raise Stub.timeout]
       (ImuTest.mk ImuTest.Looping []))
  = [ImuTest.PrintError Stub.timeout;
     ImuTest.PrintEuler [0.125; 0.25; 0.5]; ImuTest.Slept (1 / 30);
     ImuTest.PrintError Stub.timeout].
Proof.
  apply (imu_test_survives_failures (RT := Stub.runtime)
           [Raise Stub.timeout; Ok Stub.older; Raise Stub.timeout]
           (ImuTest.mk ImuTest.Looping []) eq_refl).
  repeat constructor; cbn; intros e [= <-]; reflexivity.
Defined.
